(** * Aster bridge: the Python tool-invocation client (aster.py)

    A shallow embedding of [client-sdks/python-bridge/aster.py]: the
    [AsterBridge] class (session handling, [call_tool] with its retry loop,
    [list_tools], [close]) and the module-level stub registry
    ([_init_bridge], [_generate_tool_function], [inject_tools]).

    Modelling conventions.
    - Python values that travel as JSON are the type [value]; a [dict] is a
      [gmap string value].
    - An exception is a constructor of [exn]; which constructor is decided by
      the first [except] clause of [call_tool] whose class it is an instance
      of.  A computation that may raise returns a [result].
    - Objects with identity (the aiohttp [ClientSession]s) live in a heap, the
      list [sessions]: the index is the identity, the entry is the [closed]
      flag.
    - The network is an oracle [server]: the outcome of the n-th request sent
      by the process.  Every request and every [asyncio.sleep] is appended to
      a log, which is what the claims on attempts and delays are read from.
    - A Python [float] delay is an exact rational ([Qc]); multiplying a float
      by a power of two is exact short of overflow.  The conversion of
      [2 ** attempt] to a float, which the product makes first, raises
      [OverflowError] from [2 ** 1024] on, and that is modelled.  A product
      beyond the float range, which Python rounds to [inf], is not: the log
      then holds the exact product. *)

From stdpp Require Import base strings gmap list pretty.
From Stdlib Require Import ZArith QArith Qcanon.

Open Scope Z_scope.

(** ** Python values *)

#[warnings="-register-all"]
Inductive value :=
  | PNone
  | PBool (b : bool)
  | PInt (n : Z)
  | PFloat (q : Qc)
  | PStr (s : string)
  | PList (l : list value)
  | PDict (d : gmap string value).

(** Python truthiness, as used by [not x], [x or y] and [if x]. *)
Definition str_truthy (s : string) : bool :=
  match s with EmptyString => false | String _ _ => true end.

Definition truthy (v : value) : bool :=
  match v with
  | PNone => false
  | PBool b => b
  | PInt n => negb (n =? 0)
  | PFloat q => negb (Qnum (this q) =? 0)
  | PStr s => str_truthy s
  | PList l => match l with [] => false | _ :: _ => true end
  | PDict d => negb (bool_decide (d = ∅))
  end.

(** [d.get(k, dflt)]; [d.get(k)] is [dict_get d k PNone]. *)
Definition dict_get (d : gmap string value) (k : string) (dflt : value) : value :=
  default dflt (d !! k).

(** [int] to [float] conversion and the f-string rendering of an [int]. *)
Definition of_int (z : Z) : Qc := Q2Qc (inject_Z z).
Definition str_int (z : Z) : string := pretty z.

(** ** Exceptions *)

Inductive exn :=
  | ToolExecutionError (tool_name : string) (error_msg : value)
  | NetworkError (msg : string)
  | ClientConnectorError (str : string)   (* aiohttp.ClientConnectorError *)
  | ClientError (str : string)            (* any other aiohttp.ClientError *)
  | TimeoutError                          (* asyncio.TimeoutError *)
  | AttributeError (str : string)
  | OverflowError (str : string)
  | TypeError (str : string)
  | OtherError (str : string).            (* anything no handler names *)

Inductive result (A : Type) :=
  | Ok (a : A)
  | Raise (e : exn).
Arguments Ok {A} a.
Arguments Raise {A} e.

(** ** State and exception monad *)

Definition M (S A : Type) : Type := S -> result A * S.

Definition ret {S A} (a : A) : M S A := fun s => (Ok a, s).
Definition raise {S A} (e : exn) : M S A := fun s => (Raise e, s).
Definition bind {S A B} (m : M S A) (k : A -> M S B) : M S B :=
  fun s => match m s with
           | (Ok a, s') => k a s'
           | (Raise e, s') => (Raise e, s')
           end.
Definition gets {S A} (f : S -> A) : M S A := fun s => (Ok (f s), s).
Definition modify {S} (f : S -> S) : M S unit := fun s => (Ok tt, f s).
Definition lift {S A} (r : result A) : M S A := fun s => (r, s).
(** [try: m except e: h e] *)
Definition try_except {S A} (m : M S A) (h : exn -> M S A) : M S A :=
  fun s => match m s with
           | (Ok a, s') => (Ok a, s')
           | (Raise e, s') => h e s'
           end.

Notation "'let*' x ':=' m 'in' k" := (bind m (fun x => k))
  (at level 10, x pattern, m at level 100, k at level 200).
Notation "m ';;' k" := (bind m (fun _ => k))
  (at level 100, k at level 200, right associativity).

(** ** The network and the heap *)

(** What [session.post] / [session.get] are called with.  [timeout] is the
    [total] of the [aiohttp.ClientTimeout] passed, [None] when the call
    passes none. *)
Inductive request :=
  | POST (url : string) (json : value) (timeout : option Z)
  | GET (url : string) (params : gmap string string).

(** What the [async with ... as resp] block can read of a response:
    [resp.status], [await resp.text()] and [await resp.json()]; the two
    reads may raise. *)
Record response := {
  status : Z;
  text : result string;
  json : result value;
}.

Inductive event :=
  | Request (session : nat) (rq : request)
  | Sleep (delay : Qc).

Record AsterBridge := {
  base_url : string;
  max_retries : Z;
  retry_delay : Qc;
  _session : option nat;
}.

(** A bridge instance [self] together with the world its methods act on. *)
Record machine := {
  self : AsterBridge;
  sessions : list bool;
  log : list event;
}.

Definition is_request (e : event) : bool :=
  match e with Request _ _ => true | Sleep _ => false end.

(** Number of requests sent so far. *)
Definition sent (l : list event) : nat := length (filter is_request l).

(** The delays slept so far, in order. *)
Definition delays (l : list event) : list Qc :=
  omap (fun e => match e with Sleep d => Some d | Request _ _ => None end) l.

(** [session.closed]; a reference outside the heap counts as closed. *)
Definition closed (m : machine) (s : nat) : bool :=
  default true (sessions m !! s).

Definition set_session (s : option nat) (b : AsterBridge) : AsterBridge :=
  {| base_url := base_url b; max_retries := max_retries b;
     retry_delay := retry_delay b; _session := s |}.

(** [AsterBridge.__init__]; an omitted argument is [None]. *)
Definition AsterBridge_init (environ : gmap string string)
    (base_url : option string) (max_retries : option Z)
    (retry_delay : option Qc) : AsterBridge :=
  let from_env :=
    default "http://localhost:8080" (environ !! "ASTER_BRIDGE_URL") in
  {| base_url :=
       match base_url with
       | Some u => if str_truthy u then u else from_env
       | None => from_env
       end;
     max_retries := default 3 max_retries;
     retry_delay := default (Q2Qc (1 # 2)) retry_delay;
     _session := None |}.

Section Bridge.

(** The outcome of the n-th request of the process (n counted from 0). *)
Variable server : nat -> request -> result response.

(** [aiohttp.ClientSession()]: a fresh, open session. *)
Definition new_session : M machine nat := fun m =>
  let s := length (sessions m) in
  (Ok s, {| self := set_session (Some s) (self m);
            sessions := sessions m ++ [false];
            log := log m |}).

Definition _get_session : M machine nat := fun m =>
  match _session (self m) with
  | None => new_session m
  | Some s => if closed m s then new_session m else (Ok s, m)
  end.

(** [session.post(...)] / [session.get(...)] up to the response head: the
    request is logged and the server decides whether a response comes back
    or the call raises. *)
Definition send (s : nat) (rq : request) : M machine response := fun m =>
  (server (sent (log m)) rq,
   {| self := self m; sessions := sessions m;
      log := log m ++ [Request s rq] |}).

(** [asyncio.sleep(d)] *)
Definition sleep (d : Qc) : M machine unit :=
  modify (fun m => {| self := self m; sessions := sessions m;
                      log := log m ++ [Sleep d] |}).

(** How one iteration of the [for] loop of [call_tool] ends when it does not
    raise: [return v], or [continue] with [last_error] assigned. *)
Inductive flow :=
  | Return (v : value)
  | Continue (last_error : exn).

(** The payload [{"tool": name, "input": kwargs}]. *)
Definition call_payload (name : string) (kwargs : gmap string value) : value :=
  PDict (<["tool" := PStr name]> (<["input" := PDict kwargs]> ∅)).

Definition call_request (b : AsterBridge) (name : string)
    (kwargs : gmap string value) : request :=
  POST (base_url b +:+ "/tools/call") (call_payload name kwargs) (Some 60).

(** The float that [retry_delay * (2 ** attempt)] makes of the integer
    [2 ** attempt] before it multiplies: the powers of two up to [2 ** 1023]
    are floats, and from [2 ** 1024] on the conversion raises
    [OverflowError]. *)
Definition float_of_pow2 (attempt : nat) : result Qc :=
  if (attempt <? 1024)%nat then Ok (of_int (2 ^ Z.of_nat attempt))
  else Raise (OverflowError "int too large to convert to float").

(** The tail shared by every retryable branch:
    [if attempt < self.max_retries - 1: sleep(...); continue] then
    [raise last_error].  The [OverflowError] of the delay is raised before
    anything is slept; no handler names it. *)
Definition backoff_or_raise (attempt : nat) (last_error : exn) : M machine flow :=
  let* b := gets self in
  if Z.of_nat attempt <? max_retries b - 1 then
    let* factor := lift (float_of_pow2 attempt) in
    sleep (retry_delay b * factor)%Qc ;;
    ret (Continue last_error)
  else raise last_error.

(** The body of the [try] block.  [result.get] on a parsed body that is not
    a mapping raises [AttributeError], which no handler catches. *)
Definition attempt_body (name : string) (kwargs : gmap string value)
    (attempt : nat) : M machine flow :=
  let* session := _get_session in
  let* b := gets self in
  let* resp := send session (call_request b name kwargs) in
  if 500 <=? status resp then
    let* error_text := lift (text resp) in
    backoff_or_raise attempt
      (NetworkError ("Server error (HTTP " +:+ str_int (status resp)
                     +:+ "): " +:+ error_text))
  else if 400 <=? status resp then
    let* error_text := lift (text resp) in
    raise (NetworkError ("Client error (HTTP " +:+ str_int (status resp)
                         +:+ "): " +:+ error_text))
  else
    let* result := lift (json resp) in
    match result with
    | PDict d =>
        if negb (truthy (dict_get d "success" PNone)) then
          raise (ToolExecutionError name
                   (dict_get d "error" (PStr "Unknown error")))
        else ret (Return (dict_get d "result" PNone))
    | _ => raise (AttributeError "get")
    end.

(** The [except] clauses, in order.  The [NetworkError]s raised in the
    [try] block are instances of none of the classes named and propagate. *)
Definition attempt_handlers (name : string) (attempt : nat) (e : exn)
    : M machine flow :=
  match e with
  | ClientConnectorError str =>
      let* b := gets self in
      backoff_or_raise attempt
        (NetworkError ("Connection error: " +:+ str +:+ ". "
                       +:+ "Is the bridge server running at "
                       +:+ base_url b +:+ "?"))
  | ClientError str =>
      backoff_or_raise attempt (NetworkError ("Network error: " +:+ str))
  | ToolExecutionError _ _ => raise e
  | TimeoutError =>
      backoff_or_raise attempt
        (NetworkError ("Tool " +:+ name +:+ " timed out after 60 seconds"))
  | _ => raise e
  end.

Definition attempt_once (name : string) (kwargs : gmap string value)
    (attempt : nat) : M machine flow :=
  try_except (attempt_body name kwargs attempt) (attempt_handlers name attempt).

(** [for attempt in attempts: ...] followed by the code after the loop. *)
Fixpoint call_tool_loop (name : string) (kwargs : gmap string value)
    (attempts : list nat) (last_error : option exn) : M machine value :=
  match attempts with
  | [] =>
      match last_error with
      | Some e => raise e
      | None =>
          let* b := gets self in
          raise (NetworkError ("Failed to call tool " +:+ name +:+ " after "
                               +:+ str_int (max_retries b) +:+ " attempts"))
      end
  | attempt :: rest =>
      let* f := attempt_once name kwargs attempt in
      match f with
      | Return v => ret v
      | Continue e => call_tool_loop name kwargs rest (Some e)
      end
  end.

Definition call_tool (name : string) (kwargs : gmap string value)
    : M machine value :=
  let* b := gets self in
  call_tool_loop name kwargs (seq 0 (Z.to_nat (max_retries b))) None.

(** The call [self.call_tool(name, **kwargs)] as a caller holding a
    dictionary writes it: the keywords are bound to the parameters
    [(self, name, **kwargs)] of [call_tool], so a keyword called [self] or
    [name] is a second value for that parameter and the call raises
    [TypeError] before the method runs.  (With both present Python names
    the one that comes first in the caller's dictionary.) *)
Definition call_tool_unpacked (name : string) (kwargs : gmap string value)
    : M machine value :=
  match kwargs !! "self", kwargs !! "name" with
  | Some _, _ =>
      raise (TypeError
               "AsterBridge.call_tool() got multiple values for argument 'self'")
  | None, Some _ =>
      raise (TypeError
               "AsterBridge.call_tool() got multiple values for argument 'name'")
  | None, None => call_tool name kwargs
  end.

Definition list_tools : M machine value :=
  let* session := _get_session in
  let* b := gets self in
  let* resp := send session (GET (base_url b +:+ "/tools/list") ∅) in
  let* data := lift (json resp) in
  match data with
  | PDict d => ret (dict_get d "tools" (PList []))
  | _ => raise (AttributeError "get")
  end.

Definition close : M machine unit := fun m =>
  match _session (self m) with
  | Some s =>
      if negb (closed m s) then
        (Ok tt, {| self := self m; sessions := <[s := true]> (sessions m);
                   log := log m |})
      else (Ok tt, m)
  | None => (Ok tt, m)
  end.

Definition get_tool_schema (name : string) : M machine value :=
  let* session := _get_session in
  let* b := gets self in
  let* resp := send session (GET (base_url b +:+ "/tools/schema")
                               (<["name" := name]> ∅)) in
  lift (json resp).

(** [__aenter__] returns [self]; [__aexit__] closes and returns [None], so
    an exception of the block is not suppressed. *)
Definition __aenter__ : M machine unit := ret tt.
Definition __aexit__ : M machine unit := close.

(** [async with bridge: body]: [__aexit__] runs however [body] ends; the
    block ends as [body] did unless [__aexit__] itself raises. *)
Definition async_with {A} (body : M machine A) : M machine A :=
  __aenter__ ;;
  fun m =>
    let '(r, m') := body m in
    match __aexit__ m' with
    | (Ok _, m'') => (r, m'')
    | (Raise e, m'') => (Raise e, m'')
    end.

End Bridge.

(** ** Module level: the process-wide bridge and the stub registry *)

(** The module global [_bridge], [os.environ], and the world. *)
Record process := {
  _bridge : option AsterBridge;
  environ : gmap string string;
  heap : list bool;
  trace : list event;
}.

Section Module.

Variable server : nat -> request -> result response.

Definition _init_bridge (base_url : option string) : M process AsterBridge :=
  fun p =>
    match _bridge p with
    | None =>
        let b := AsterBridge_init (environ p) base_url None None in
        (Ok b, {| _bridge := Some b; environ := environ p;
                  heap := heap p; trace := trace p |})
    | Some b => (Ok b, p)
    end.

(** [await _bridge.<method>(...)]: run a method on the object the global
    [_bridge] holds; on [None] the attribute access raises. *)
Definition on_bridge {A} (method : M machine A) : M process A := fun p =>
  match _bridge p with
  | None => (Raise (AttributeError "call_tool"), p)
  | Some b =>
      let '(r, m) := method {| self := b; sessions := heap p; log := trace p |} in
      (r, {| _bridge := Some (self m); environ := environ p;
             heap := sessions m; trace := log m |})
  end.

(** The function object [_generate_tool_function] returns. *)
Record tool_func := {
  __name__ : string;
  __doc__ : string;
  __call__ : gmap string value -> M process value;
}.

Definition _generate_tool_function (tool_name : string) : tool_func :=
  {| __name__ := tool_name;
     __doc__ := "Call " +:+ tool_name +:+ " tool";
     __call__ := fun kwargs =>
       on_bridge (call_tool_unpacked server tool_name kwargs) |}.

Definition inject_tools (tools : list string) (base_url : option string)
    (p : process) : gmap string tool_func * process :=
  let p' := snd (_init_bridge base_url p) in
  let injected :=
    foldl (fun injected tool_name =>
             <[tool_name := _generate_tool_function tool_name]> injected)
          ∅ tools in
  (injected, p').

(** The tool functions written out in the module.  A parameter with a
    default is an [option], [None] when the argument is omitted. *)
Definition Read (path : string) : M process value :=
  on_bridge (call_tool server "Read" (<["path" := PStr path]> ∅)).

Definition Write (path content : string) : M process value :=
  on_bridge (call_tool server "Write"
               (<["path" := PStr path]> (<["content" := PStr content]> ∅))) ;;
  ret PNone.

Definition Glob (pattern : string) (path : option string) : M process value :=
  on_bridge (call_tool server "Glob"
               (<["pattern" := PStr pattern]>
                  (<["path" := PStr (default "." path)]> ∅))).

Definition Grep (pattern : string) (path : option string)
    (glob : option string) : M process value :=
  let params : gmap string value :=
    <["pattern" := PStr pattern]> (<["path" := PStr (default "." path)]> ∅) in
  let params :=
    match glob with
    | Some g => if str_truthy g then <["glob" := PStr g]> params else params
    | None => params
    end in
  on_bridge (call_tool server "Grep" params).

Definition Bash (command : string) (timeout : option Z) : M process value :=
  let params : gmap string value := <["command" := PStr command]> ∅ in
  let params :=
    match timeout with
    | Some t => <["timeout" := PInt t]> params
    | None => params
    end in
  on_bridge (call_tool server "Bash" params).

End Module.

(** * Verification *)

(** ** Specification vocabulary *)

(** The machine with its log replaced. *)
Definition with_log (m : machine) (l : list event) : machine :=
  {| self := self m; sessions := sessions m; log := l |}.

(** The machine once a session has been acquired, and that session. *)
Definition acquired (m : machine) : machine := snd (_get_session m).
Definition current (m : machine) : nat :=
  default 0%nat (_session (self (acquired m))).

(** The session [s] is the bridge's and is open. *)
Definition live (m : machine) (s : nat) : Prop :=
  _session (self m) = Some s /\ sessions m !! s = Some false.

(** The backoff delay the specification gives for an attempt. *)
Definition backoff (d : Qc) (attempt : nat) : Qc :=
  (d * of_int (2 ^ Z.of_nat attempt))%Qc.

(** [k] failed attempts, each followed by its backoff delay. *)
Definition retries (s : nat) (rq : request) (d : Qc) (k : nat) : list event :=
  flat_map (fun i => [Request s rq; Sleep (backoff d i)]) (seq 0 k).

(** The log of [n] attempts separated by backoff delays. *)
Definition backoff_trace (s : nat) (rq : request) (d : Qc) (n : nat)
    : list event :=
  retries s rq d (n - 1) ++ [Request s rq].

(** The machine before attempt [k] of a [call_tool name kwargs] started on
    [m] whose earlier attempts were all retried. *)
Definition before (name : string) (kwargs : gmap string value) (m : machine)
    (k : nat) : machine :=
  with_log (acquired m)
    (log m ++ retries (current m) (call_request (self m) name kwargs)
                (retry_delay (self m)) k).

(** The machine when a [call_tool name kwargs] started on [m] ends at its
    [n]-th attempt. *)
Definition finished (name : string) (kwargs : gmap string value) (m : machine)
    (n : nat) : machine :=
  with_log (acquired m)
    (log m ++ backoff_trace (current m) (call_request (self m) name kwargs)
                (retry_delay (self m)) n).

(** [s] occurs in [t]. *)
Definition includes (t s : string) : Prop :=
  exists pre post, t = pre +:+ s +:+ post.

(** ** Methods run from the module *)

(** The machine a method of the process-wide bridge [b] runs on, and the
    process it leaves. *)
Definition machine_of (b : AsterBridge) (p : process) : machine :=
  {| self := b; sessions := heap p; log := trace p |}.

Definition process_of (p : process) (m : machine) : process :=
  {| _bridge := Some (self m); environ := environ p;
     heap := sessions m; trace := log m |}.

(** The call raised [AttributeError] and left the process [p] as it was. *)
Definition fails_unsent (r : result value * process) (p : process) : Prop :=
  (exists str, fst r = Raise (AttributeError str)) /\ snd r = p.

(** ** The decision table of one attempt *)

(** How an attempt is settled: retried with an error recorded (raised
    instead when it is the last attempt allowed), or decided for good. *)
Inductive verdict :=
  | Retry (e : exn)
  | Done (r : result value).

(** The exceptions of the transport, which [call_tool] names in its
    [except] clauses. *)
Definition transport_error (e : exn) : bool :=
  match e with
  | ClientConnectorError _ | ClientError _ | TimeoutError => true
  | _ => false
  end.

(** The verdict on an exception raised while sending or reading. *)
Definition verdict_of_exn (b : AsterBridge) (name : string) (e : exn) : verdict :=
  match e with
  | ClientConnectorError str =>
      Retry (NetworkError ("Connection error: " +:+ str +:+ ". "
                           +:+ "Is the bridge server running at "
                           +:+ base_url b +:+ "?"))
  | ClientError str => Retry (NetworkError ("Network error: " +:+ str))
  | TimeoutError =>
      Retry (NetworkError ("Tool " +:+ name +:+ " timed out after 60 seconds"))
  | _ => Done (Raise e)
  end.

(** The verdict on what the server does with a request. *)
Definition verdict_of (b : AsterBridge) (name : string) (o : result response)
    : verdict :=
  match o with
  | Raise e => verdict_of_exn b name e
  | Ok r =>
      if 500 <=? status r then
        match text r with
        | Ok t => Retry (NetworkError ("Server error (HTTP "
                           +:+ str_int (status r) +:+ "): " +:+ t))
        | Raise e => verdict_of_exn b name e
        end
      else if 400 <=? status r then
        match text r with
        | Ok t => Done (Raise (NetworkError ("Client error (HTTP "
                                 +:+ str_int (status r) +:+ "): " +:+ t)))
        | Raise e => verdict_of_exn b name e
        end
      else
        match json r with
        | Ok (PDict d) =>
            if truthy (dict_get d "success" PNone)
            then Done (Ok (dict_get d "result" PNone))
            else Done (Raise (ToolExecutionError name
                                (dict_get d "error" (PStr "Unknown error"))))
        | Ok _ => Done (Raise (AttributeError "get"))
        | Raise e => verdict_of_exn b name e
        end
  end.

(** How attempt [i] on the bridge [b] ends under a verdict: [retry] is the
    machine after the request and the backoff delay, [finish] the machine
    after the request alone.  A retry is attempted only while attempts
    remain, and the delay of attempt 1024 and beyond cannot be computed. *)
Definition attempt_outcome (b : AsterBridge) (i : nat) (v : verdict)
    (retry finish : machine) : result flow * machine :=
  match v with
  | Retry e =>
      if Z.of_nat i <? max_retries b - 1
      then
        if (i <? 1024)%nat then (Ok (Continue e), retry)
        else (Raise (OverflowError "int too large to convert to float"),
              finish)
      else (Raise e, finish)
  | Done (Ok v) => (Ok (Return v), finish)
  | Done (Raise e) => (Raise e, finish)
  end.

(** ** Sample inputs *)

(** [AsterBridge()] in an empty environment, before any call. *)
Definition sample_machine : machine :=
  {| self := AsterBridge_init ∅ None None None; sessions := []; log := [] |}.

(** [AsterBridge(max_retries=0)]. *)
Definition idle_machine : machine :=
  {| self := AsterBridge_init ∅ None (Some 0) None; sessions := []; log := [] |}.

Definition unavailable : response :=
  {| status := 503; text := Ok "unavailable";
     json := Raise (ClientError "unexpected mimetype") |}.

Definition not_found : response :=
  {| status := 404; text := Ok "unknown tool";
     json := Raise (ClientError "unexpected mimetype") |}.

Definition reply (body : gmap string value) : response :=
  {| status := 200; text := Ok ""; json := Ok (PDict body) |}.

Definition success_body : gmap string value :=
  <["success" := PBool true]> (<["result" := PStr "contents"]> ∅).

Definition failure_body : gmap string value :=
  <["success" := PBool false]> (<["error" := PStr "no such file"]> ∅).

(** A server answering every request alike. *)
Definition always (r : response) : nat -> request -> result response :=
  fun _ _ => Ok r.

(** A server unreachable for the first two requests. *)
Definition flaky : nat -> request -> result response :=
  fun n _ => if (n <? 2)%nat
             then Raise (ClientConnectorError "Connection refused")
             else Ok (reply success_body).

(** A server the requests to which time out. *)
Definition timing_out : nat -> request -> result response :=
  fun _ _ => Raise TimeoutError.

(** A server that cannot be reached. *)
Definition unreachable : nat -> request -> result response :=
  fun _ _ => Raise (ClientConnectorError "Connection refused").

(** A server failing in a different way at each request. *)
Definition failing : nat -> request -> result response :=
  fun n _ => match n with
             | O => Raise TimeoutError
             | S O => Raise (ClientConnectorError "Connection refused")
             | _ => Ok unavailable
             end.


(** A 404 whose body is cut short, and a 200 of the wrong content type. *)
Definition truncated : response :=
  {| status := 404;
     text := Raise (ClientError "Response payload is not completed");
     json := Raise (ClientError "Response payload is not completed") |}.

Definition mistyped : response :=
  {| status := 200; text := Ok "<html>";
     json := Raise (ClientError "unexpected mimetype: text/html") |}.

(** A 200 whose body is a JSON list, and a 500 that lists a tool. *)
Definition listing : response :=
  {| status := 200; text := Ok "[]"; json := Ok (PList []) |}.

Definition broken_listing : response :=
  {| status := 500; text := Ok "";
     json := Ok (PDict (<["tools" := PList [PStr "Read"]]> ∅)) |}.

(** A 503 whose body is cut short. *)
Definition cut_short : response :=
  {| status := 503;
     text := Raise (ClientError "Response payload is not completed");
     json := Raise (ClientError "Response payload is not completed") |}.

(** [AsterBridge(max_retries=1026, retry_delay=0.0)]. *)
Definition patient_machine : machine :=
  {| self := AsterBridge_init ∅ None (Some 1026) (Some (Q2Qc 0));
     sessions := []; log := [] |}.

(** A server that can be reached from the 1026th request on. *)
Definition late : nat -> request -> result response :=
  fun n _ => if (n <? 1025)%nat
             then Raise (ClientConnectorError "Connection refused")
             else Ok (reply success_body).

(** A server giving one answer first and another ever after. *)
Definition then_always (first rest : response)
    : nat -> request -> result response :=
  fun n _ => match n with O => Ok first | S _ => Ok rest end.

(** A process whose bridge is [AsterBridge()]. *)
Definition ready_process : process :=
  {| _bridge := Some (AsterBridge_init ∅ None None None);
     environ := ∅; heap := []; trace := [] |}.

(** A process in which no bridge exists yet. *)
Definition fresh_process : process :=
  {| _bridge := None; environ := ∅; heap := []; trace := [] |}.

Ltac run_attempt :=
  unfold attempt_once, try_except, attempt_body, attempt_handlers,
    backoff_or_raise, float_of_pow2, bind, gets, send, sleep, modify, lift,
    raise, ret, with_log, backoff.

(** ** Strings and the log *)

Lemma append_assoc (a b c : string) : (a +:+ b) +:+ c = a +:+ (b +:+ c).
Proof.
  induction a as [|x a IH]; [done|].
  unfold String.append; fold String.append. by rewrite IH.
Qed.

Lemma sent_app l1 l2 : sent (l1 ++ l2) = (sent l1 + sent l2)%nat.
Proof. unfold sent. by rewrite filter_app, length_app. Qed.

Lemma delays_app l1 l2 : delays (l1 ++ l2) = delays l1 ++ delays l2.
Proof. unfold delays. by rewrite omap_app. Qed.

Lemma retries_S s rq d k :
  retries s rq d (S k) = retries s rq d k ++ [Request s rq; Sleep (backoff d k)].
Proof.
  unfold retries. by rewrite seq_S, flat_map_app.
Qed.

Lemma sent_retries s rq d k : sent (retries s rq d k) = k.
Proof.
  induction k as [|k IH]; [done|].
  rewrite retries_S, sent_app, IH. unfold sent; simpl. lia.
Qed.

Lemma delays_retries s rq d k :
  delays (retries s rq d k) = map (backoff d) (seq 0 k).
Proof.
  induction k as [|k IH]; [done|].
  rewrite retries_S, delays_app, IH, seq_S, map_app. done.
Qed.

Lemma sent_backoff_trace s rq d n :
  (1 <= n)%nat -> sent (backoff_trace s rq d n) = n.
Proof.
  intros Hn. unfold backoff_trace. rewrite sent_app, sent_retries.
  unfold sent; simpl. lia.
Qed.

Lemma delays_backoff_trace s rq d n :
  delays (backoff_trace s rq d n) = map (backoff d) (seq 0 (n - 1)).
Proof.
  unfold backoff_trace. rewrite delays_app, delays_retries.
  simpl. by rewrite app_nil_r.
Qed.

(** ** Sessions *)

Lemma get_session_eq m : _get_session m = (Ok (current m), acquired m).
Proof.
  unfold current, acquired, _get_session, new_session.
  destruct (_session (self m)) as [s|] eqn:Hs; simpl; [|done].
  destruct (closed m s); simpl; [done|]. by rewrite Hs.
Qed.

Lemma get_session_live m s : live m s -> _get_session m = (Ok s, m).
Proof.
  intros [Hs Ho]. unfold _get_session, closed. by rewrite Hs, Ho.
Qed.

Lemma acquired_live m : live (acquired m) (current m).
Proof.
  unfold live, current, acquired, _get_session, new_session, closed.
  destruct (_session (self m)) as [s|] eqn:Hs; simpl.
  - destruct (sessions m !! s) as [[]|] eqn:Ho; simpl;
      rewrite ?Hs; simpl; try done;
      split; try done; by rewrite lookup_app_r, Nat.sub_diag.
  - split; [done|]. by rewrite lookup_app_r, Nat.sub_diag.
Qed.

Lemma acquired_log m : log (acquired m) = log m.
Proof.
  unfold acquired, _get_session, new_session.
  destruct (_session (self m)) as [s|]; [destruct (closed m s)|]; done.
Qed.

Lemma acquired_config m :
  base_url (self (acquired m)) = base_url (self m) /\
  max_retries (self (acquired m)) = max_retries (self m) /\
  retry_delay (self (acquired m)) = retry_delay (self m).
Proof.
  unfold acquired, _get_session, new_session.
  destruct (_session (self m)) as [s|]; [destruct (closed m s)|]; done.
Qed.

Lemma live_with_log m s l : live m s -> live (with_log m l) s.
Proof. done. Qed.

(** ** One attempt of [call_tool] *)

Section Attempt.

Variable server : nat -> request -> result response.
Variable name : string.
Variable kwargs : gmap string value.

(** An attempt starts by acquiring the session, so it runs the same from a
    machine and from that machine with the session acquired. *)
Lemma attempt_once_acquired i m :
  attempt_once server name kwargs i m =
  attempt_once server name kwargs i (acquired m).
Proof.
  unfold attempt_once, try_except, attempt_body, bind.
  rewrite (get_session_eq m).
  by rewrite (get_session_live (acquired m) (current m)) by apply acquired_live.
Qed.

Lemma step_server_error i m s r t :
  live m s ->
  server (sent (log m)) (call_request (self m) name kwargs) = Ok r ->
  500 <= status r -> text r = Ok t ->
  attempt_once server name kwargs i m =
    let rq := call_request (self m) name kwargs in
    let e := NetworkError ("Server error (HTTP " +:+ str_int (status r)
                           +:+ "): " +:+ t) in
    if Z.of_nat i <? max_retries (self m) - 1
    then
      if (i <? 1024)%nat
      then (Ok (Continue e),
            with_log m (log m ++ [Request s rq;
                                  Sleep (backoff (retry_delay (self m)) i)]))
      else (Raise (OverflowError "int too large to convert to float"),
            with_log m (log m ++ [Request s rq]))
    else (Raise e, with_log m (log m ++ [Request s rq])).
Proof.
  intros Hl Hsrv Hst Ht. run_attempt.
  rewrite (get_session_live m s Hl); simpl. rewrite Hsrv; simpl.
  destruct (Z.leb_spec 500 (status r)); [|lia]. rewrite Ht; simpl.
  destruct (Z.of_nat i <? max_retries (self m) - 1); simpl; [|done].
  destruct (i <? 1024)%nat; simpl; [|done].
  by rewrite <- app_assoc.
Qed.

Lemma step_connector_error i m s str :
  live m s ->
  server (sent (log m)) (call_request (self m) name kwargs)
    = Raise (ClientConnectorError str) ->
  attempt_once server name kwargs i m =
    let rq := call_request (self m) name kwargs in
    let e := NetworkError ("Connection error: " +:+ str +:+ ". "
                           +:+ "Is the bridge server running at "
                           +:+ base_url (self m) +:+ "?") in
    if Z.of_nat i <? max_retries (self m) - 1
    then
      if (i <? 1024)%nat
      then (Ok (Continue e),
            with_log m (log m ++ [Request s rq;
                                  Sleep (backoff (retry_delay (self m)) i)]))
      else (Raise (OverflowError "int too large to convert to float"),
            with_log m (log m ++ [Request s rq]))
    else (Raise e, with_log m (log m ++ [Request s rq])).
Proof.
  intros Hl Hsrv. run_attempt.
  rewrite (get_session_live m s Hl); simpl. rewrite Hsrv; simpl.
  destruct (Z.of_nat i <? max_retries (self m) - 1); simpl; [|done].
  destruct (i <? 1024)%nat; simpl; [|done].
  by rewrite <- app_assoc.
Qed.

Lemma step_client_error i m s r t :
  live m s ->
  server (sent (log m)) (call_request (self m) name kwargs) = Ok r ->
  400 <= status r < 500 -> text r = Ok t ->
  attempt_once server name kwargs i m =
    (Raise (NetworkError ("Client error (HTTP " +:+ str_int (status r)
                          +:+ "): " +:+ t)),
     with_log m (log m ++ [Request s (call_request (self m) name kwargs)])).
Proof.
  intros Hl Hsrv Hst Ht. run_attempt.
  rewrite (get_session_live m s Hl); simpl. rewrite Hsrv; simpl.
  destruct (Z.leb_spec 500 (status r)); [lia|].
  destruct (Z.leb_spec 400 (status r)); [|lia].
  by rewrite Ht.
Qed.

Lemma step_body i m s r d :
  live m s ->
  server (sent (log m)) (call_request (self m) name kwargs) = Ok r ->
  status r < 400 -> json r = Ok (PDict d) ->
  attempt_once server name kwargs i m =
    let m' := with_log m (log m ++ [Request s (call_request (self m) name kwargs)]) in
    if truthy (dict_get d "success" PNone)
    then (Ok (Return (dict_get d "result" PNone)), m')
    else (Raise (ToolExecutionError name
                   (dict_get d "error" (PStr "Unknown error"))), m').
Proof.
  intros Hl Hsrv Hst Hj. run_attempt.
  rewrite (get_session_live m s Hl); simpl. rewrite Hsrv; simpl.
  destruct (Z.leb_spec 500 (status r)); [lia|].
  destruct (Z.leb_spec 400 (status r)); [lia|].
  rewrite Hj; simpl.
  by destruct (truthy (dict_get d "success" PNone)).
Qed.

(** ** The retry loop *)

Lemma loop_acquired attempt rest last m :
  call_tool_loop server name kwargs (attempt :: rest) last m =
  call_tool_loop server name kwargs (attempt :: rest) last (acquired m).
Proof. simpl. unfold bind. by rewrite attempt_once_acquired. Qed.

(** If the attempts [j, ..., j+k-1] all end in [continue], the loop reaches
    attempt [j+k] with the last of their errors recorded. *)
Lemma loop_continue (st : nat -> machine) (err : nat -> exn) k :
  forall j rest last,
    (forall i, (j <= i < j + k)%nat ->
       attempt_once server name kwargs i (st i)
         = (Ok (Continue (err i)), st (S i))) ->
    call_tool_loop server name kwargs (seq j k ++ rest) last (st j) =
    call_tool_loop server name kwargs rest
      (match k with O => last | S k' => Some (err (j + k')%nat) end)
      (st (j + k)%nat).
Proof.
  induction k as [|k IH]; intros j rest last Hstep.
  - simpl. by rewrite Nat.add_0_r.
  - simpl. unfold bind at 1. rewrite Hstep by lia.
    rewrite IH by (intros i Hi; apply Hstep; lia).
    replace (S j + k)%nat with (j + S k)%nat by lia.
    destruct k as [|k']; [by rewrite Nat.add_0_r|].
    by replace (S j + k')%nat with (j + S k')%nat by lia.
Qed.

Lemma call_tool_eq m :
  call_tool server name kwargs m =
  call_tool_loop server name kwargs
    (seq 0 (Z.to_nat (max_retries (self m)))) None m.
Proof. done. Qed.

(** With at least one attempt allowed, [call_tool] starts with attempt 0 on
    the acquired session. *)
Lemma call_tool_first m :
  1 <= max_retries (self m) ->
  call_tool server name kwargs m =
  call_tool_loop server name kwargs
    (0%nat :: seq 1 (Z.to_nat (max_retries (self m)) - 1)) None (acquired m).
Proof.
  intros Hn. rewrite call_tool_eq.
  destruct (Z.to_nat (max_retries (self m))) as [|n] eqn:E; [lia|].
  simpl seq. rewrite Nat.sub_0_r. apply loop_acquired.
Qed.

Lemma before_live m k : live (before name kwargs m k) (current m).
Proof. apply live_with_log, acquired_live. Qed.

Lemma before_sent m k : sent (log (before name kwargs m k)) = (sent (log m) + k)%nat.
Proof. simpl. by rewrite sent_app, sent_retries. Qed.

Lemma before_request m k :
  call_request (self (before name kwargs m k)) name kwargs
  = call_request (self m) name kwargs.
Proof.
  unfold call_request; simpl. by destruct (acquired_config m) as (-> & _).
Qed.

Lemma before_0 m : before name kwargs m 0 = acquired m.
Proof.
  unfold before, with_log, retries; simpl. rewrite app_nil_r.
  rewrite <- (acquired_log m). by destruct (acquired m).
Qed.

Lemma before_S m k :
  with_log (before name kwargs m k)
    (log (before name kwargs m k) ++
       [Request (current m) (call_request (self m) name kwargs);
        Sleep (backoff (retry_delay (self m)) k)])
  = before name kwargs m (S k).
Proof. unfold before, with_log; simpl. by rewrite retries_S, app_assoc. Qed.

Lemma before_config m k :
  base_url (self (before name kwargs m k)) = base_url (self m) /\
  max_retries (self (before name kwargs m k)) = max_retries (self m) /\
  retry_delay (self (before name kwargs m k)) = retry_delay (self m).
Proof. apply acquired_config. Qed.

Lemma before_finished m k :
  with_log (before name kwargs m k)
    (log (before name kwargs m k) ++
       [Request (current m) (call_request (self m) name kwargs)])
  = finished name kwargs m (S k).
Proof.
  unfold before, finished, backoff_trace, with_log; simpl.
  by rewrite Nat.sub_0_r, app_assoc.
Qed.

Lemma finished_sent m n :
  (1 <= n)%nat -> sent (log (finished name kwargs m n)) = (sent (log m) + n)%nat.
Proof. intros Hn. simpl. by rewrite sent_app, sent_backoff_trace. Qed.

Lemma finished_delays m n :
  delays (log (finished name kwargs m n))
  = delays (log m) ++ map (backoff (retry_delay (self m))) (seq 0 (n - 1)).
Proof. simpl. by rewrite delays_app, delays_backoff_trace. Qed.

(** The steps above, at the machine a run has reached before attempt [k]. *)
Lemma before_server_error m k r t :
  server (sent (log m) + k)%nat (call_request (self m) name kwargs) = Ok r ->
  500 <= status r -> text r = Ok t ->
  attempt_once server name kwargs k (before name kwargs m k) =
    if Z.of_nat k <? max_retries (self m) - 1
    then
      if (k <? 1024)%nat
      then (Ok (Continue (NetworkError ("Server error (HTTP "
              +:+ str_int (status r) +:+ "): " +:+ t))),
            before name kwargs m (S k))
      else (Raise (OverflowError "int too large to convert to float"),
            finished name kwargs m (S k))
    else (Raise (NetworkError ("Server error (HTTP "
            +:+ str_int (status r) +:+ "): " +:+ t)),
          finished name kwargs m (S k)).
Proof.
  intros Hsrv Hst Ht.
  rewrite (step_server_error k _ (current m) r t); try done.
  - cbv zeta. rewrite before_request.
    destruct (before_config m k) as (_ & -> & ->).
    by rewrite before_S, before_finished.
  - apply before_live.
  - by rewrite before_sent, before_request.
Qed.

Lemma before_connector_error m k str :
  server (sent (log m) + k)%nat (call_request (self m) name kwargs)
    = Raise (ClientConnectorError str) ->
  attempt_once server name kwargs k (before name kwargs m k) =
    if Z.of_nat k <? max_retries (self m) - 1
    then
      if (k <? 1024)%nat
      then (Ok (Continue (NetworkError ("Connection error: " +:+ str +:+ ". "
              +:+ "Is the bridge server running at "
              +:+ base_url (self m) +:+ "?"))),
            before name kwargs m (S k))
      else (Raise (OverflowError "int too large to convert to float"),
            finished name kwargs m (S k))
    else (Raise (NetworkError ("Connection error: " +:+ str +:+ ". "
            +:+ "Is the bridge server running at "
            +:+ base_url (self m) +:+ "?")),
          finished name kwargs m (S k)).
Proof.
  intros Hsrv.
  rewrite (step_connector_error k _ (current m) str); try done.
  - cbv zeta. rewrite before_request.
    destruct (before_config m k) as (-> & -> & ->).
    by rewrite before_S, before_finished.
  - apply before_live.
  - by rewrite before_sent, before_request.
Qed.

Lemma before_client_error m k r t :
  server (sent (log m) + k)%nat (call_request (self m) name kwargs) = Ok r ->
  400 <= status r < 500 -> text r = Ok t ->
  attempt_once server name kwargs k (before name kwargs m k) =
    (Raise (NetworkError ("Client error (HTTP " +:+ str_int (status r)
                          +:+ "): " +:+ t)),
     finished name kwargs m (S k)).
Proof.
  intros Hsrv Hst Ht.
  rewrite (step_client_error k _ (current m) r t); try done.
  - by rewrite before_request, before_finished.
  - apply before_live.
  - by rewrite before_sent, before_request.
Qed.

Lemma before_body m k r d :
  server (sent (log m) + k)%nat (call_request (self m) name kwargs) = Ok r ->
  status r < 400 -> json r = Ok (PDict d) ->
  attempt_once server name kwargs k (before name kwargs m k) =
    if truthy (dict_get d "success" PNone)
    then (Ok (Return (dict_get d "result" PNone)), finished name kwargs m (S k))
    else (Raise (ToolExecutionError name
                   (dict_get d "error" (PStr "Unknown error"))),
          finished name kwargs m (S k)).
Proof.
  intros Hsrv Hst Hj.
  rewrite (step_body k _ (current m) r d); try done.
  - cbv zeta. by rewrite before_request, before_finished.
  - apply before_live.
  - by rewrite before_sent, before_request.
Qed.

(** [call_tool] whose attempts before the last allowed one are all retried
    comes down to that last attempt. *)
Lemma call_tool_last m (err : nat -> exn) :
  1 <= max_retries (self m) ->
  (forall i, (i < Z.to_nat (max_retries (self m)) - 1)%nat ->
     attempt_once server name kwargs i (before name kwargs m i)
       = (Ok (Continue (err i)), before name kwargs m (S i))) ->
  call_tool server name kwargs m =
  call_tool_loop server name kwargs
    [(Z.to_nat (max_retries (self m)) - 1)%nat]
    (match (Z.to_nat (max_retries (self m)) - 1)%nat with
     | O => None
     | S k => Some (err k)
     end)
    (before name kwargs m (Z.to_nat (max_retries (self m)) - 1)).
Proof.
  intros Hn Hstep. rewrite call_tool_first by done.
  rewrite <- before_0.
  change (0%nat :: seq 1 (Z.to_nat (max_retries (self m)) - 1))
    with (seq 0 (S (Z.to_nat (max_retries (self m)) - 1))).
  rewrite seq_S. simpl "+"%nat.
  rewrite (loop_continue (before name kwargs m) err); [done|].
  intros i Hi. apply Hstep. lia.
Qed.

(** [call_tool] decided by its first attempt. *)
Lemma call_tool_single m :
  1 <= max_retries (self m) ->
  call_tool server name kwargs m =
  call_tool_loop server name kwargs
    (0%nat :: seq 1 (Z.to_nat (max_retries (self m)) - 1)) None
    (before name kwargs m 0).
Proof. intros Hn. rewrite before_0. by apply call_tool_first. Qed.

End Attempt.

(** ** [call_tool]: the claims *)

Section CallTool.

Variable server : nat -> request -> result response.

(** C1, as amended.  On a bridge with [1 <= max_retries <= 1025], if every
    one of the [max_retries] requests of a [call_tool] is answered with a
    5xx status and a body that is read, the call sends exactly
    [max_retries] requests, sleeps [retry_delay * 2^attempt] after each
    attempt but the last, and raises the [NetworkError] built from the last
    response (its status and body); the fallback error written after the
    loop is not what is raised. *)
Theorem call_tool_server_errors name kwargs m
    (resp : nat -> response) (body : nat -> string) :
  1 <= max_retries (self m) <= 1025 ->
  (forall i, (i < Z.to_nat (max_retries (self m)))%nat ->
     server (sent (log m) + i)%nat (call_request (self m) name kwargs)
       = Ok (resp i) /\
     500 <= status (resp i) < 600 /\
     text (resp i) = Ok (body i)) ->
  call_tool server name kwargs m =
    (Raise (NetworkError
       ("Server error (HTTP "
        +:+ str_int (status (resp (Z.to_nat (max_retries (self m)) - 1)%nat))
        +:+ "): " +:+ body (Z.to_nat (max_retries (self m)) - 1)%nat)),
     finished name kwargs m (Z.to_nat (max_retries (self m)))) /\
  sent (log (finished name kwargs m (Z.to_nat (max_retries (self m)))))
    = (sent (log m) + Z.to_nat (max_retries (self m)))%nat /\
  delays (log (finished name kwargs m (Z.to_nat (max_retries (self m)))))
    = delays (log m) ++
      map (fun attempt =>
             (retry_delay (self m) * of_int (2 ^ Z.of_nat attempt))%Qc)
          (seq 0 (Z.to_nat (max_retries (self m)) - 1)).
Proof.
  intros [Hn Hmax] Hsrv.
  set (n := Z.to_nat (max_retries (self m))) in *.
  assert (Hn' : (1 <= n <= 1025)%nat) by lia.
  split; [|split; [apply finished_sent; lia | by apply finished_delays]].
  set (err := fun i => NetworkError ("Server error (HTTP "
                +:+ str_int (status (resp i)) +:+ "): " +:+ body i)).
  rewrite (call_tool_last server name kwargs m err Hn).
  - fold n. destruct (Hsrv (n - 1)%nat) as (Hr & Hst & Ht); [lia|].
    simpl. unfold bind.
    rewrite (before_server_error server name kwargs m _ _ _ Hr) by (lia || done).
    destruct (Z.ltb_spec (Z.of_nat (n - 1)) (max_retries (self m) - 1)); [lia|].
    by replace (S (n - 1)) with n by lia.
  - fold n. intros i Hi. destruct (Hsrv i) as (Hr & Hst & Ht); [lia|].
    rewrite (before_server_error server name kwargs m _ _ _ Hr) by (lia || done).
    destruct (Z.ltb_spec (Z.of_nat i) (max_retries (self m) - 1)); [|lia].
    by destruct (Nat.ltb_spec i 1024); [|lia].
Qed.

(** C2.  If the first response to a [call_tool] has a 2xx status and a body
    that parses to a mapping with [success] false, the call raises
    [ToolExecutionError] with the tool name and the body's [error] entry,
    having sent exactly one request and slept not at all. *)
Theorem call_tool_tool_failure name kwargs m r d e :
  1 <= max_retries (self m) ->
  server (sent (log m)) (call_request (self m) name kwargs) = Ok r ->
  200 <= status r < 300 ->
  json r = Ok (PDict d) ->
  d !! "success" = Some (PBool false) ->
  d !! "error" = Some e ->
  call_tool server name kwargs m =
    (Raise (ToolExecutionError name e), finished name kwargs m 1) /\
  sent (log (finished name kwargs m 1)) = (sent (log m) + 1)%nat /\
  delays (log (finished name kwargs m 1)) = delays (log m).
Proof.
  intros Hn Hr Hst Hj Hs He.
  split; [|split; [by apply finished_sent
                  | rewrite finished_delays; simpl; by rewrite app_nil_r]].
  rewrite call_tool_single by done. simpl. unfold bind.
  rewrite (before_body server name kwargs m 0 r d);
    [|by rewrite Nat.add_0_r|lia|done].
  unfold dict_get. by rewrite Hs, He.
Qed.

(** C3.  If the first response to a [call_tool] has a 2xx status and a body
    that parses to a mapping with [success] true, the call returns the
    body's [result] entry as it is. *)
Theorem call_tool_success name kwargs m r d v :
  1 <= max_retries (self m) ->
  server (sent (log m)) (call_request (self m) name kwargs) = Ok r ->
  200 <= status r < 300 ->
  json r = Ok (PDict d) ->
  d !! "success" = Some (PBool true) ->
  d !! "result" = Some v ->
  call_tool server name kwargs m = (Ok v, finished name kwargs m 1).
Proof.
  intros Hn Hr Hst Hj Hs Hv.
  rewrite call_tool_single by done. simpl. unfold bind.
  rewrite (before_body server name kwargs m 0 r d);
    [|by rewrite Nat.add_0_r|lia|done].
  unfold dict_get. by rewrite Hs, Hv.
Qed.

(** A 4xx response whose body is read: the call raises a [NetworkError] at
    once, exactly one request is sent and nothing is slept, whatever
    [max_retries >= 1] is. *)
Theorem call_tool_client_error name kwargs m r t :
  1 <= max_retries (self m) ->
  server (sent (log m)) (call_request (self m) name kwargs) = Ok r ->
  400 <= status r < 500 ->
  text r = Ok t ->
  call_tool server name kwargs m =
    (Raise (NetworkError ("Client error (HTTP " +:+ str_int (status r)
                          +:+ "): " +:+ t)),
     finished name kwargs m 1) /\
  sent (log (finished name kwargs m 1)) = (sent (log m) + 1)%nat /\
  delays (log (finished name kwargs m 1)) = delays (log m).
Proof.
  intros Hn Hr Hst Ht.
  split; [|split; [by apply finished_sent
                  | rewrite finished_delays; simpl; by rewrite app_nil_r]].
  rewrite call_tool_single by done. simpl. unfold bind.
  by rewrite (before_client_error server name kwargs m 0 r t);
    [|by rewrite Nat.add_0_r|lia|done].
Qed.

(** C5, as amended.  On a bridge with [max_retries <= 1025], if the first
    [max_retries - 1] requests of a [call_tool] fail to connect and the last
    one is answered 2xx with [success] true, the call returns the body's
    [result] and has sent exactly [max_retries] requests; each failed
    attempt ends in [continue] with a [NetworkError] recorded whose message
    includes the bridge's [base_url]. *)
Theorem call_tool_connects_at_last name kwargs m (str : nat -> string) r d v :
  1 <= max_retries (self m) <= 1025 ->
  (forall i, (i < Z.to_nat (max_retries (self m)) - 1)%nat ->
     server (sent (log m) + i)%nat (call_request (self m) name kwargs)
       = Raise (ClientConnectorError (str i))) ->
  server (sent (log m) + (Z.to_nat (max_retries (self m)) - 1))%nat
    (call_request (self m) name kwargs) = Ok r ->
  200 <= status r < 300 ->
  json r = Ok (PDict d) ->
  d !! "success" = Some (PBool true) ->
  d !! "result" = Some v ->
  call_tool server name kwargs m =
    (Ok v, finished name kwargs m (Z.to_nat (max_retries (self m)))) /\
  sent (log (finished name kwargs m (Z.to_nat (max_retries (self m)))))
    = (sent (log m) + Z.to_nat (max_retries (self m)))%nat /\
  forall i, (i < Z.to_nat (max_retries (self m)) - 1)%nat ->
    exists msg,
      attempt_once server name kwargs i (before name kwargs m i)
        = (Ok (Continue (NetworkError msg)), before name kwargs m (S i)) /\
      includes msg (base_url (self m)).
Proof.
  intros [Hn Hmax] Hsrv Hr Hst Hj Hs Hv.
  set (n := Z.to_nat (max_retries (self m))) in *.
  set (err := fun i => NetworkError ("Connection error: " +:+ str i +:+ ". "
                +:+ "Is the bridge server running at "
                +:+ base_url (self m) +:+ "?")).
  assert (Hstep : forall i, (i < n - 1)%nat ->
            attempt_once server name kwargs i (before name kwargs m i)
              = (Ok (Continue (err i)), before name kwargs m (S i))).
  { intros i Hi.
    rewrite (before_connector_error server name kwargs m i _ (Hsrv i Hi)).
    destruct (Z.ltb_spec (Z.of_nat i) (max_retries (self m) - 1)); [|lia].
    by destruct (Nat.ltb_spec i 1024); [|lia]. }
  split; [|split; [apply finished_sent; lia|]].
  - rewrite (call_tool_last server name kwargs m err Hn Hstep). fold n.
    simpl. unfold bind.
    rewrite (before_body server name kwargs m _ r d Hr) by (lia || done).
    unfold dict_get. rewrite Hs, Hv. simpl.
    by replace (S (n - 1)) with n by lia.
  - intros i Hi. eexists. split; [by apply Hstep|].
    exists ("Connection error: " +:+ str i +:+ ". "
            +:+ "Is the bridge server running at "), "?".
    by rewrite !append_assoc.
Qed.

(** C10.  If the first response to a [call_tool] has a 2xx status and a body
    that parses to a mapping in which [success] is missing or falsy, the
    call raises [ToolExecutionError]; its message is the body's [error]
    entry, and exactly ["Unknown error"] when there is none. *)
Theorem call_tool_missing_success name kwargs m r d :
  1 <= max_retries (self m) ->
  server (sent (log m)) (call_request (self m) name kwargs) = Ok r ->
  200 <= status r < 300 ->
  json r = Ok (PDict d) ->
  (d !! "success" = None \/
   exists v, d !! "success" = Some v /\ truthy v = false) ->
  exists error_msg,
    call_tool server name kwargs m =
      (Raise (ToolExecutionError name error_msg), finished name kwargs m 1) /\
    (forall e, d !! "error" = Some e -> error_msg = e) /\
    (d !! "error" = None -> error_msg = PStr "Unknown error").
Proof.
  intros Hn Hr Hst Hj Hs.
  exists (dict_get d "error" (PStr "Unknown error")). split.
  - rewrite call_tool_single by done. simpl. unfold bind.
    rewrite (before_body server name kwargs m 0 r d);
      [|by rewrite Nat.add_0_r|lia|done].
    assert (truthy (dict_get d "success" PNone) = false) as ->; [|done].
    unfold dict_get. destruct Hs as [->|(v & -> & Hv)]; done.
  - unfold dict_get. split; [by intros e ->|by intros ->].
Qed.

End CallTool.

(** ** Sessions, construction and discovery: the claims *)

(** C7.  Acquiring the session twice in a row returns the same open session
    and the second acquisition changes nothing; acquiring, closing and
    acquiring again returns a session that is not the first one, with the
    first one closed; and [close] changes nothing when the bridge has no
    session or its session is already closed. *)
Theorem session_lifecycle m :
  (exists s m1,
     _get_session m = (Ok s, m1) /\ _get_session m1 = (Ok s, m1) /\
     live m1 s) /\
  (exists s1 s2 m3,
     (let* s1 := _get_session in
      close ;;
      let* s2 := _get_session in
      ret (s1, s2)) m = (Ok (s1, s2), m3) /\
     s1 <> s2 /\ sessions (acquired m) !! s2 = None /\
     live m3 s2 /\ sessions m3 !! s1 = Some true) /\
  (_session (self m) = None \/
   (exists s, _session (self m) = Some s /\ closed m s = true) ->
   close m = (Ok tt, m)).
Proof.
  split; [|split].
  - exists (current m), (acquired m). pose proof (acquired_live m) as Hl.
    by rewrite get_session_eq, (get_session_live _ _ Hl).
  - destruct (acquired_live m) as [Hs Ho].
    assert (Hlt : (current m < length (sessions (acquired m)))%nat)
      by (by apply lookup_lt_Some in Ho).
    exists (current m), (length (sessions (acquired m))). eexists.
    unfold bind, ret. rewrite get_session_eq.
    unfold close, closed. rewrite Hs, Ho. simpl.
    unfold _get_session, closed; simpl. rewrite Hs.
    rewrite list_lookup_insert_eq by done. simpl. rewrite length_insert.
    split; [done|]. split; [lia|]. split; [by apply lookup_ge_None|].
    unfold live; simpl.
    split; [split; [done|]|].
    + rewrite lookup_app_r; rewrite length_insert; [|done].
      by rewrite Nat.sub_diag.
    + rewrite lookup_app_l by (by rewrite length_insert).
      by apply list_lookup_insert_eq.
  - unfold close. intros [->|(s & -> & ->)]; done.
Qed.

(** C8, as amended.  [AsterBridge(base_url, max_retries, retry_delay)] takes
    its endpoint from [base_url] when that is a non-empty string, otherwise
    from the environment variable [ASTER_BRIDGE_URL] when that is set,
    otherwise ["http://localhost:8080"]; [max_retries] and [retry_delay] are
    the arguments, 3 and 0.5 when omitted; no session exists yet. *)
Theorem AsterBridge_init_config environ url retries delay :
  (forall u, url = Some u -> u <> "" ->
     base_url (AsterBridge_init environ url retries delay) = u) /\
  (url = None \/ url = Some "" ->
   (forall v, environ !! "ASTER_BRIDGE_URL" = Some v ->
      base_url (AsterBridge_init environ url retries delay) = v) /\
   (environ !! "ASTER_BRIDGE_URL" = None ->
      base_url (AsterBridge_init environ url retries delay)
        = "http://localhost:8080")) /\
  max_retries (AsterBridge_init environ url None delay) = 3 /\
  retry_delay (AsterBridge_init environ url retries None) = Q2Qc (1 # 2) /\
  (forall n, max_retries (AsterBridge_init environ url (Some n) delay) = n) /\
  (forall d, retry_delay (AsterBridge_init environ url retries (Some d)) = d) /\
  _session (AsterBridge_init environ url retries delay) = None.
Proof.
  split; [|split; [|done]].
  - intros u -> Hu; simpl. by destruct u.
  - intros Hurl. assert (base_url (AsterBridge_init environ url retries delay)
      = default "http://localhost:8080" (environ !! "ASTER_BRIDGE_URL")) as ->
      by (by destruct Hurl as [->| ->]).
    split; [by intros v ->|by intros ->].
Qed.

Section Discovery.

Variable server : nat -> request -> result response.

(** C9.  If the response to the request of [list_tools] parses to a mapping
    whose [tools] entry is missing or is the empty list, [list_tools]
    returns the empty list; it has sent exactly one request and slept not
    at all. *)
Theorem list_tools_empty m r d :
  server (sent (log m)) (GET (base_url (self m) +:+ "/tools/list") ∅) = Ok r ->
  json r = Ok (PDict d) ->
  d !! "tools" = None \/ d !! "tools" = Some (PList []) ->
  exists m',
    list_tools server m = (Ok (PList []), m') /\
    log m' = log m ++
      [Request (current m) (GET (base_url (self m) +:+ "/tools/list") ∅)] /\
    sent (log m') = (sent (log m) + 1)%nat /\
    delays (log m') = delays (log m).
Proof.
  intros Hr Hj Ht. eexists.
  unfold list_tools, bind, gets, send, lift, ret.
  rewrite get_session_eq. destruct (acquired_config m) as (-> & _).
  rewrite acquired_log, Hr, Hj. simpl.
  assert (dict_get d "tools" (PList []) = PList []) as ->
    by (unfold dict_get; by destruct Ht as [->| ->]).
  split; [done|]. simpl. split; [done|split].
  - by rewrite sent_app.
  - rewrite delays_app. simpl. by rewrite app_nil_r.
Qed.

End Discovery.

(** ** The stub registry: the claims *)

Section Registry.

Variable server : nat -> request -> result response.

Lemma injected_lookup tools (acc : gmap string tool_func) name :
  foldl (fun injected tool_name =>
           <[tool_name := _generate_tool_function server tool_name]> injected)
        acc tools !! name
  = if decide (name ∈ tools)
    then Some (_generate_tool_function server name)
    else acc !! name.
Proof.
  revert acc. induction tools as [|t tools IH]; intros acc; cbn [foldl].
  - by rewrite decide_False by apply not_elem_of_nil.
  - rewrite IH. destruct (decide (name ∈ tools)) as [Hin|Hnin].
    + by rewrite decide_True by (by right).
    + destruct (decide (name = t)) as [->|Hne].
      * rewrite lookup_insert_eq. by rewrite decide_True by left.
      * rewrite lookup_insert_ne by done.
        rewrite decide_False; [done|]. by intros [?|?]%elem_of_cons.
Qed.

(** C6, as amended.  [inject_tools(tools, base_url)] leaves an existing
    process-wide bridge as it is and otherwise creates one with
    [AsterBridge(base_url)]; the mapping it returns has exactly the given
    names as keys, and the value at a name, called on a process whose bridge
    is [b] with keyword arguments none of which is called [self] or [name],
    runs [call_tool(name, kwargs)] on [b] once: it gives that call's result
    or exception and leaves the bridge and the world as that call left
    them.  With a keyword called [self] or [name] the call raises
    [TypeError] and nothing is sent. *)
Theorem inject_tools_registry tools url p :
  _bridge (snd (inject_tools server tools url p))
    = Some (default (AsterBridge_init (environ p) url None None) (_bridge p)) /\
  environ (snd (inject_tools server tools url p)) = environ p /\
  heap (snd (inject_tools server tools url p)) = heap p /\
  trace (snd (inject_tools server tools url p)) = trace p /\
  (forall name,
     is_Some (fst (inject_tools server tools url p) !! name) <-> name ∈ tools) /\
  (forall name, name ∈ tools ->
     exists f,
       fst (inject_tools server tools url p) !! name = Some f /\
       forall kwargs q b, _bridge q = Some b ->
         (kwargs !! "self" = None -> kwargs !! "name" = None ->
          __call__ f kwargs q =
           (fst (call_tool server name kwargs
                   {| self := b; sessions := heap q; log := trace q |}),
            {| _bridge :=
                 Some (self (snd (call_tool server name kwargs
                   {| self := b; sessions := heap q; log := trace q |})));
               environ := environ q;
               heap :=
                 sessions (snd (call_tool server name kwargs
                   {| self := b; sessions := heap q; log := trace q |}));
               trace :=
                 log (snd (call_tool server name kwargs
                   {| self := b; sessions := heap q; log := trace q |})) |})) /\
         (is_Some (kwargs !! "self") \/ is_Some (kwargs !! "name") ->
          exists str, __call__ f kwargs q = (Raise (TypeError str), q))).
Proof.
  unfold inject_tools; cbn [fst snd].
  repeat split; try (by (unfold _init_bridge; destruct (_bridge p) eqn:E)).
  - rewrite injected_lookup. case_decide; [done|].
    rewrite lookup_empty. by intros [? ?].
  - intros Hin. rewrite injected_lookup, decide_True by done. by eexists.
  - intros name Hin. exists (_generate_tool_function server name).
    split; [by rewrite injected_lookup, decide_True by done|].
    intros kwargs q b Hb. simpl. unfold on_bridge, call_tool_unpacked.
    rewrite Hb. split.
    + intros -> ->. by destruct (call_tool server name kwargs _).
    + destruct q as [qb qe qh qt]; simpl in *; subst qb. unfold raise.
      destruct (kwargs !! "self") as [v1|], (kwargs !! "name") as [v2|];
        simpl; eauto.
      by intros [[? [=]]|[? [=]]].
Qed.

End Registry.

(** ** The claims on sample inputs *)

(** With no attempt allowed the loop body never runs and the error written
    after the loop is raised. *)
Lemma call_tool_no_attempts server name kwargs m :
  max_retries (self m) <= 0 ->
  call_tool server name kwargs m =
    (Raise (NetworkError ("Failed to call tool " +:+ name +:+ " after "
                          +:+ str_int (max_retries (self m)) +:+ " attempts")),
     m).
Proof.
  intros Hn. rewrite call_tool_eq.
  by replace (Z.to_nat (max_retries (self m))) with 0%nat by lia.
Qed.

Lemma call_tool_server_errors_sample :
  call_tool (always unavailable) "Read" ∅ sample_machine =
    (Raise (NetworkError "Server error (HTTP 503): unavailable"),
     finished "Read" ∅ sample_machine 3) /\
  sent (log (finished "Read" ∅ sample_machine 3)) = 3%nat /\
  delays (log (finished "Read" ∅ sample_machine 3))
    = [backoff (Q2Qc (1 # 2)) 0; backoff (Q2Qc (1 # 2)) 1].
Proof.
  apply (call_tool_server_errors (always unavailable) "Read" ∅ sample_machine
           (fun _ => unavailable) (fun _ => "unavailable")).
  - done.
  - intros i _. repeat split; done.
Defined.

Lemma call_tool_tool_failure_sample :
  call_tool (always (reply failure_body)) "Read" ∅ sample_machine =
    (Raise (ToolExecutionError "Read" (PStr "no such file")),
     finished "Read" ∅ sample_machine 1) /\
  sent (log (finished "Read" ∅ sample_machine 1)) = 1%nat /\
  delays (log (finished "Read" ∅ sample_machine 1)) = [].
Proof.
  apply (call_tool_tool_failure (always (reply failure_body)) "Read" ∅
           sample_machine (reply failure_body) failure_body
           (PStr "no such file")).
  - done.
  - reflexivity.
  - done.
  - reflexivity.
  - by vm_compute.
  - by vm_compute.
Defined.

Lemma call_tool_success_sample :
  call_tool (always (reply success_body)) "Read" ∅ sample_machine =
    (Ok (PStr "contents"), finished "Read" ∅ sample_machine 1).
Proof.
  apply (call_tool_success (always (reply success_body)) "Read" ∅
           sample_machine (reply success_body) success_body).
  - done.
  - reflexivity.
  - done.
  - reflexivity.
  - by vm_compute.
  - by vm_compute.
Defined.

Lemma call_tool_client_error_sample :
  call_tool (always not_found) "Read" ∅ sample_machine =
    (Raise (NetworkError "Client error (HTTP 404): unknown tool"),
     finished "Read" ∅ sample_machine 1) /\
  sent (log (finished "Read" ∅ sample_machine 1)) = 1%nat /\
  delays (log (finished "Read" ∅ sample_machine 1)) = [].
Proof.
  apply (call_tool_client_error (always not_found) "Read" ∅ sample_machine
           not_found "unknown tool").
  - done.
  - reflexivity.
  - done.
  - reflexivity.
Defined.

Lemma call_tool_connects_at_last_sample :
  call_tool flaky "Read" ∅ sample_machine =
    (Ok (PStr "contents"), finished "Read" ∅ sample_machine 3) /\
  sent (log (finished "Read" ∅ sample_machine 3)) = 3%nat /\
  forall i, (i < 2)%nat ->
    exists msg,
      attempt_once flaky "Read" ∅ i (before "Read" ∅ sample_machine i)
        = (Ok (Continue (NetworkError msg)),
           before "Read" ∅ sample_machine (S i)) /\
      includes msg "http://localhost:8080".
Proof.
  apply (call_tool_connects_at_last flaky "Read" ∅ sample_machine
           (fun _ => "Connection refused") (reply success_body) success_body).
  - done.
  - intros i Hi. simpl in Hi. unfold flaky. simpl.
    by destruct (Nat.ltb_spec i 2); [|lia].
  - reflexivity.
  - done.
  - reflexivity.
  - by vm_compute.
  - by vm_compute.
Defined.

Lemma call_tool_missing_success_sample :
  exists error_msg,
    call_tool (always (reply ∅)) "Read" ∅ sample_machine =
      (Raise (ToolExecutionError "Read" error_msg),
       finished "Read" ∅ sample_machine 1) /\
    (forall e, (∅ : gmap string value) !! "error" = Some e -> error_msg = e) /\
    ((∅ : gmap string value) !! "error" = None ->
     error_msg = PStr "Unknown error").
Proof.
  apply (call_tool_missing_success (always (reply ∅)) "Read" ∅ sample_machine
           (reply ∅) ∅).
  - done.
  - reflexivity.
  - done.
  - reflexivity.
  - by left.
Defined.

Lemma session_lifecycle_sample : close sample_machine = (Ok tt, sample_machine).
Proof.
  apply (proj2 (proj2 (session_lifecycle sample_machine))). by left.
Defined.

(** C8 as stated fails on [AsterBridge(base_url="")]: the empty string is
    given, and the endpoint is the default. *)
Lemma AsterBridge_init_empty_url :
  base_url (AsterBridge_init ∅ (Some "") None None) = "http://localhost:8080" /\
  base_url (AsterBridge_init ∅ (Some "") None None) <> "".
Proof. split; [reflexivity|discriminate]. Qed.

Lemma AsterBridge_init_config_sample :
  base_url (AsterBridge_init ∅ (Some "http://bridge:9000") None None)
    = "http://bridge:9000".
Proof.
  apply (proj1 (AsterBridge_init_config ∅ (Some "http://bridge:9000") None None)
           "http://bridge:9000").
  - reflexivity.
  - discriminate.
Defined.

Lemma list_tools_empty_sample :
  exists m',
    list_tools (always (reply ∅)) sample_machine = (Ok (PList []), m') /\
    log m' = [Request 0 (GET "http://localhost:8080/tools/list" ∅)] /\
    sent (log m') = 1%nat /\
    delays (log m') = [].
Proof.
  apply (list_tools_empty (always (reply ∅)) sample_machine (reply ∅) ∅).
  - reflexivity.
  - reflexivity.
  - by left.
Defined.

Lemma inject_tools_registry_sample :
  exists f,
    fst (inject_tools (always (reply success_body)) ["Read"] None fresh_process)
      !! "Read" = Some f /\
    forall kwargs q b, _bridge q = Some b ->
      (kwargs !! "self" = None -> kwargs !! "name" = None ->
       __call__ f kwargs q =
        (fst (call_tool (always (reply success_body)) "Read" kwargs
                {| self := b; sessions := heap q; log := trace q |}),
         {| _bridge :=
              Some (self (snd (call_tool (always (reply success_body)) "Read"
                kwargs {| self := b; sessions := heap q; log := trace q |})));
            environ := environ q;
            heap :=
              sessions (snd (call_tool (always (reply success_body)) "Read"
                kwargs {| self := b; sessions := heap q; log := trace q |}));
            trace :=
              log (snd (call_tool (always (reply success_body)) "Read"
                kwargs {| self := b; sessions := heap q; log := trace q |})) |})) /\
      (is_Some (kwargs !! "self") \/ is_Some (kwargs !! "name") ->
       exists str, __call__ f kwargs q = (Raise (TypeError str), q)).
Proof.
  apply (inject_tools_registry (always (reply success_body)) ["Read"] None
           fresh_process).
  by left.
Defined.

(** * Beyond the claims: the whole of [call_tool] *)

Section Verdicts.

Variable server : nat -> request -> result response.
Variable name : string.
Variable kwargs : gmap string value.

(** What the handlers do with an exception of the [try] block. *)
Lemma handlers_verdict i m e :
  attempt_handlers name i e m =
    match verdict_of_exn (self m) name e with
    | Retry e' => backoff_or_raise i e' m
    | Done _ => (Raise e, m)
    end.
Proof. by destruct e. Qed.

(** One attempt on a live session follows the decision table. *)
Lemma attempt_once_verdict i m s :
  live m s ->
  attempt_once server name kwargs i m =
    attempt_outcome (self m) i
      (verdict_of (self m) name
         (server (sent (log m)) (call_request (self m) name kwargs)))
      (with_log m (log m ++
         [Request s (call_request (self m) name kwargs);
          Sleep (backoff (retry_delay (self m)) i)]))
      (with_log m (log m ++ [Request s (call_request (self m) name kwargs)])).
Proof.
  intros Hl.
  set (retry := with_log m (log m ++
         [Request s (call_request (self m) name kwargs);
          Sleep (backoff (retry_delay (self m)) i)])).
  set (finish :=
         with_log m (log m ++ [Request s (call_request (self m) name kwargs)])).
  assert (Hretry : forall e,
    backoff_or_raise i e finish
    = attempt_outcome (self m) i (Retry e) retry finish).
  { intros e. unfold attempt_outcome, retry, finish. run_attempt. simpl.
    destruct (Z.of_nat i <? max_retries (self m) - 1); simpl; [|done].
    destruct (i <? 1024)%nat; simpl; [|done].
    by rewrite <- app_assoc. }
  assert (Hexn : forall e,
    attempt_handlers name i e finish
    = attempt_outcome (self m) i (verdict_of_exn (self m) name e) retry finish).
  { intros e. rewrite handlers_verdict. change (self finish) with (self m).
    destruct e; simpl verdict_of_exn; cbv iota; try done; apply Hretry. }
  unfold attempt_once, try_except, attempt_body, bind, gets, send, lift.
  rewrite (get_session_live m s Hl).
  change {| self := self m; sessions := sessions m;
            log := log m ++ [Request s (call_request (self m) name kwargs)] |}
    with finish.
  unfold verdict_of.
  destruct (server (sent (log m)) (call_request (self m) name kwargs))
    as [r|e]; [|apply Hexn].
  destruct (500 <=? status r).
  { destruct (text r) as [t|e]; [|apply Hexn].
    rewrite Hretry. unfold attempt_outcome.
    destruct (Z.of_nat i <? max_retries (self m) - 1); [|done].
    by destruct (i <? 1024)%nat. }
  destruct (400 <=? status r).
  { destruct (text r) as [t|e]; [|apply Hexn]. done. }
  destruct (json r) as [v|e]; [|apply Hexn].
  destruct v; try done.
  by destruct (truthy (dict_get d "success" PNone)).
Qed.

(** The same at the machine a run has reached before attempt [k]. *)
Lemma before_verdict m k :
  attempt_once server name kwargs k (before name kwargs m k) =
    attempt_outcome (self m) k
      (verdict_of (self m) name
         (server (sent (log m) + k)%nat (call_request (self m) name kwargs)))
      (before name kwargs m (S k))
      (finished name kwargs m (S k)).
Proof.
  rewrite (attempt_once_verdict k _ (current m)) by apply before_live.
  rewrite before_sent, before_request.
  destruct (before_config name kwargs m k) as (Hu & Hn & ->).
  rewrite before_S, before_finished.
  assert (verdict_of (self (before name kwargs m k)) name
            (server (sent (log m) + k)%nat (call_request (self m) name kwargs))
          = verdict_of (self m) name
            (server (sent (log m) + k)%nat (call_request (self m) name kwargs)))
    as ->; [unfold verdict_of, verdict_of_exn; by rewrite Hu|].
  unfold attempt_outcome. by rewrite Hn.
Qed.

(** A retried attempt: attempts remain and the delay can be computed. *)
Lemma before_retried m k e :
  (k < 1024)%nat ->
  (S k < Z.to_nat (max_retries (self m)))%nat ->
  verdict_of (self m) name
    (server (sent (log m) + k)%nat (call_request (self m) name kwargs))
  = Retry e ->
  attempt_once server name kwargs k (before name kwargs m k)
  = (Ok (Continue e), before name kwargs m (S k)).
Proof.
  intros Hk Hn Hv. rewrite before_verdict, Hv. unfold attempt_outcome.
  destruct (Z.ltb_spec (Z.of_nat k) (max_retries (self m) - 1)); [|lia].
  by destruct (Nat.ltb_spec k 1024); [|lia].
Qed.

End Verdicts.



(** Neither a retried error nor a raised one is an exception of the
    transport. *)
Lemma verdict_of_wrapped b name o :
  match verdict_of b name o with
  | Retry e | Done (Raise e) => transport_error e = false
  | Done (Ok _) => True
  end.
Proof.
  assert (Hexn : forall e,
    match verdict_of_exn b name e with
    | Retry e' | Done (Raise e') => transport_error e' = false
    | Done (Ok _) => True
    end) by (by intros []).
  unfold verdict_of. destruct o as [r|e]; [|apply Hexn].
  destruct (500 <=? status r); [destruct (text r); [done|apply Hexn]|].
  destruct (400 <=? status r); [destruct (text r); [done|apply Hexn]|].
  destruct (json r) as [v|e]; [|apply Hexn].
  destruct v; try done. by destruct (truthy _).
Qed.

Section Runs.

Variable server : nat -> request -> result response.
Variable name : string.
Variable kwargs : gmap string value.

(** A run whose attempts before [k] are all retried reaches attempt [k]. *)
Lemma call_tool_prefix m (err : nat -> exn) k :
  (k <= 1024)%nat ->
  (k < Z.to_nat (max_retries (self m)))%nat ->
  (forall i, (i < k)%nat ->
     verdict_of (self m) name
       (server (sent (log m) + i)%nat (call_request (self m) name kwargs))
     = Retry (err i)) ->
  call_tool server name kwargs m =
  call_tool_loop server name kwargs
    (seq k (Z.to_nat (max_retries (self m)) - k))
    (match k with O => None | S k' => Some (err k') end)
    (before name kwargs m k).
Proof.
  intros Hk' Hk Hretry. rewrite call_tool_first by lia.
  rewrite <- before_0 with (name := name) (kwargs := kwargs).
  change (0%nat :: seq 1 (Z.to_nat (max_retries (self m)) - 1))
    with (seq 0 (S (Z.to_nat (max_retries (self m)) - 1))).
  replace (S (Z.to_nat (max_retries (self m)) - 1))
    with (k + (Z.to_nat (max_retries (self m)) - k))%nat by lia.
  rewrite seq_app.
  rewrite (loop_continue server name kwargs (before name kwargs m) err); [done|].
  intros i Hi. apply before_retried; [lia|lia|apply Hretry; lia].
Qed.

(** One turn of the loop. *)
Lemma loop_step i rest last m :
  call_tool_loop server name kwargs (i :: rest) last m =
    match attempt_once server name kwargs i m with
    | (Ok (Return v), m') => (Ok v, m')
    | (Ok (Continue e), m') => call_tool_loop server name kwargs rest (Some e) m'
    | (Raise e, m') => (Raise e, m')
    end.
Proof.
  cbn [call_tool_loop]. unfold bind.
  by destruct (attempt_once server name kwargs i m) as [[[v|e]|e] m'].
Qed.

(** A run that reaches attempt [k], decided there. *)
Lemma call_tool_decided_at m (err : nat -> exn) k r :
  (k <= 1024)%nat ->
  (k < Z.to_nat (max_retries (self m)))%nat ->
  (forall i, (i < k)%nat ->
     verdict_of (self m) name
       (server (sent (log m) + i)%nat (call_request (self m) name kwargs))
     = Retry (err i)) ->
  verdict_of (self m) name
    (server (sent (log m) + k)%nat (call_request (self m) name kwargs))
  = Done r ->
  call_tool server name kwargs m = (r, finished name kwargs m (S k)).
Proof.
  intros Hk' Hk Hretry Hdone.
  rewrite (call_tool_prefix m err k Hk' Hk Hretry).
  destruct (Z.to_nat (max_retries (self m)) - k)%nat as [|len] eqn:E; [lia|].
  cbn [seq]. rewrite loop_step, before_verdict, Hdone.
  by destruct r.
Qed.

(** A run that reaches its last attempt, retryable as well. *)
Lemma call_tool_exhausted m (err : nat -> exn) :
  1 <= max_retries (self m) <= 1025 ->
  (forall i, (i < Z.to_nat (max_retries (self m)))%nat ->
     verdict_of (self m) name
       (server (sent (log m) + i)%nat (call_request (self m) name kwargs))
     = Retry (err i)) ->
  call_tool server name kwargs m =
    (Raise (err (Z.to_nat (max_retries (self m)) - 1)%nat),
     finished name kwargs m (Z.to_nat (max_retries (self m)))).
Proof.
  intros Hn Hretry.
  set (n := Z.to_nat (max_retries (self m))) in *.
  rewrite (call_tool_prefix m err (n - 1));
    [|lia|lia|intros i Hi; apply Hretry; lia].
  fold n. replace (n - (n - 1))%nat with 1%nat by lia.
  cbn [seq]. rewrite loop_step, before_verdict, Hretry by lia.
  unfold attempt_outcome.
  destruct (Z.ltb_spec (Z.of_nat (n - 1)) (max_retries (self m) - 1)); [lia|].
  by replace (S (n - 1)) with n by lia.
Qed.

(** A run that reaches attempt 1024 with attempts to spare: the delay
    [retry_delay * (2 ** 1024)] cannot be computed. *)
Lemma call_tool_overflows m (err : nat -> exn) :
  1026 <= max_retries (self m) ->
  (forall i, (i <= 1024)%nat ->
     verdict_of (self m) name
       (server (sent (log m) + i)%nat (call_request (self m) name kwargs))
     = Retry (err i)) ->
  call_tool server name kwargs m =
    (Raise (OverflowError "int too large to convert to float"),
     finished name kwargs m 1025).
Proof.
  intros Hn Hretry.
  rewrite (call_tool_prefix m err 1024);
    [|lia|lia|intros i Hi; apply Hretry; lia].
  destruct (Z.to_nat (max_retries (self m)) - 1024)%nat as [|len] eqn:E; [lia|].
  cbn [seq]. rewrite loop_step, before_verdict, Hretry by lia.
  unfold attempt_outcome.
  destruct (Z.ltb_spec (Z.of_nat 1024) (max_retries (self m) - 1)); [|lia].
  by destruct (Nat.ltb_spec 1024 1024); [lia|].
Qed.

(** The trace of the loop from attempt [j] on, whatever the server does. *)
Lemma loop_shape m len :
  forall j last,
    (1 <= len)%nat ->
    (j + len)%nat = Z.to_nat (max_retries (self m)) ->
    exists k,
      (j < k <= Z.to_nat (max_retries (self m)))%nat /\
      snd (call_tool_loop server name kwargs (seq j len) last
             (before name kwargs m j))
      = finished name kwargs m k.
Proof.
  induction len as [|len IH]; intros j last Hlen Hn; [lia|].
  simpl. unfold bind. rewrite before_verdict. unfold attempt_outcome.
  destruct (verdict_of _ _ _) as [e|[v|e]].
  - destruct (Z.ltb_spec (Z.of_nat j) (max_retries (self m) - 1)).
    + destruct (j <? 1024)%nat.
      * destruct (IH (S j) (Some e)) as (k & Hk & ->); [lia|lia|].
        exists k. split; [lia|done].
      * exists (S j). split; [lia|done].
    + exists (S j). split; [lia|done].
  - exists (S j). split; [lia|done].
  - exists (S j). split; [lia|done].
Qed.

(** The loop never raises an exception of the transport. *)
Lemma loop_wrapped attempts :
  forall last m e,
    match last with Some e0 => transport_error e0 = false | None => True end ->
    fst (call_tool_loop server name kwargs attempts last m) = Raise e ->
    transport_error e = false.
Proof.
  induction attempts as [|i attempts IH]; intros last m e Hlast.
  - simpl. destruct last as [e0|]; simpl; [by intros [= <-]|].
    unfold bind, gets, raise. by intros [= <-].
  - simpl. unfold bind. rewrite attempt_once_acquired.
    rewrite (attempt_once_verdict server name kwargs i _ (current m))
      by apply acquired_live.
    pose proof (verdict_of_wrapped (self (acquired m)) name
      (server (sent (log (acquired m)))
         (call_request (self (acquired m)) name kwargs))) as Hw.
    unfold attempt_outcome.
    destruct (verdict_of _ _ _) as [e'|[v|e']].
    + destruct (Z.of_nat i <? max_retries (self (acquired m)) - 1).
      * destruct (i <? 1024)%nat; [by apply IH|].
        simpl. by intros [= <-].
      * simpl. by intros [= <-].
    + done.
    + simpl. by intros [= <-].
Qed.

End Runs.

(** ** [call_tool] under any server *)

Section AnyServer.

Variable server : nat -> request -> result response.



(** A run allowed at least one attempt ends after some [k] of them. *)
Lemma call_tool_ends name kwargs m :
  1 <= max_retries (self m) ->
  exists k,
    (1 <= k <= Z.to_nat (max_retries (self m)))%nat /\
    snd (call_tool server name kwargs m) = finished name kwargs m k.
Proof.
  intros Hn. rewrite call_tool_first by done.
  rewrite <- before_0 with (name := name) (kwargs := kwargs).
  change (0%nat :: seq 1 (Z.to_nat (max_retries (self m)) - 1))
    with (seq 0 (S (Z.to_nat (max_retries (self m)) - 1))).
  destruct (loop_shape server name kwargs m
              (S (Z.to_nat (max_retries (self m)) - 1)) 0%nat None)
    as (k & Hk & ->); [lia|lia|].
  exists k. split; [lia|done].
Qed.

(** X3.  Whatever the server does, a [call_tool] allowed at least one
    attempt ends after some [k] attempts, [1 <= k <= max_retries]: its log is
    the old log followed by [k] copies of the same request, all on the
    bridge's session, with the delay [retry_delay * 2^i] after the [i]-th
    and none after the last; the bridge keeps its configuration. *)
Theorem call_tool_trace name kwargs m :
  1 <= max_retries (self m) ->
  exists k,
    (1 <= k <= Z.to_nat (max_retries (self m)))%nat /\
    snd (call_tool server name kwargs m) = finished name kwargs m k /\
    log (snd (call_tool server name kwargs m))
    = log m ++
      flat_map (fun i => [Request (current m) (call_request (self m) name kwargs);
                          Sleep (retry_delay (self m)
                                 * of_int (2 ^ Z.of_nat i))%Qc])
               (seq 0 (k - 1)) ++
      [Request (current m) (call_request (self m) name kwargs)] /\
    base_url (self (snd (call_tool server name kwargs m))) = base_url (self m) /\
    max_retries (self (snd (call_tool server name kwargs m)))
    = max_retries (self m) /\
    retry_delay (self (snd (call_tool server name kwargs m)))
    = retry_delay (self m).
Proof.
  intros Hn. destruct (call_tool_ends name kwargs m Hn) as (k & Hk & ->).
  exists k. split; [done|split; [done|split; [done|]]].
  apply acquired_config.
Qed.

(** X4.  Whatever the server does and whatever [max_retries] is,
    [call_tool] sends at most [max_retries] requests and sleeps fewer times
    than it sends. *)
Theorem call_tool_request_bound name kwargs m :
  (sent (log (snd (call_tool server name kwargs m)))
   <= sent (log m) + Z.to_nat (max_retries (self m)))%nat /\
  (length (delays (log (snd (call_tool server name kwargs m))))
   <= length (delays (log m)) + (Z.to_nat (max_retries (self m)) - 1))%nat.
Proof.
  destruct (Z.le_gt_cases 1 (max_retries (self m))) as [Hn|Hn].
  - destruct (call_tool_ends name kwargs m Hn) as (k & Hk & ->).
    rewrite finished_sent, finished_delays by lia.
    rewrite length_app, length_map, length_seq. lia.
  - rewrite call_tool_no_attempts by lia. simpl. lia.
Qed.

(** X5.  Whatever the server does, the exception [call_tool] raises is never
    one of the transport ([aiohttp.ClientError], its subclass
    [ClientConnectorError], [asyncio.TimeoutError]): those are always turned
    into a [NetworkError]. *)
Theorem call_tool_wraps_transport_errors name kwargs m e :
  fst (call_tool server name kwargs m) = Raise e ->
  transport_error e = false.
Proof. rewrite call_tool_eq. by apply loop_wrapped. Qed.

(** X6.  With [max_retries <= 0] [call_tool] does nothing but raise: no
    session is created, no request is sent, nothing is slept, and the error
    names the tool and the number of attempts. *)
Theorem call_tool_nothing_sent name kwargs m :
  max_retries (self m) <= 0 ->
  call_tool server name kwargs m =
    (Raise (NetworkError ("Failed to call tool " +:+ name +:+ " after "
                          +:+ str_int (max_retries (self m)) +:+ " attempts")),
     m).
Proof. apply call_tool_no_attempts. Qed.


End AnyServer.

(** ** [call_tool]: particular failures *)

Section Failures.

Variable server : nat -> request -> result response.

(** X8.  On a bridge with [1 <= max_retries <= 1025], if every attempt
    allowed times out, [call_tool] sends [max_retries] requests and raises
    the [NetworkError] that names the tool and the 60 seconds. *)
Theorem call_tool_times_out name kwargs m :
  1 <= max_retries (self m) <= 1025 ->
  (forall i, (i < Z.to_nat (max_retries (self m)))%nat ->
     server (sent (log m) + i)%nat (call_request (self m) name kwargs)
     = Raise TimeoutError) ->
  call_tool server name kwargs m =
    (Raise (NetworkError ("Tool " +:+ name +:+ " timed out after 60 seconds")),
     finished name kwargs m (Z.to_nat (max_retries (self m)))) /\
  sent (log (finished name kwargs m (Z.to_nat (max_retries (self m)))))
  = (sent (log m) + Z.to_nat (max_retries (self m)))%nat.
Proof.
  intros Hn Hsrv. split; [|apply finished_sent; lia].
  apply (call_tool_exhausted server name kwargs m
           (fun _ => NetworkError ("Tool " +:+ name
                                   +:+ " timed out after 60 seconds")) Hn).
  intros i Hi. by rewrite Hsrv.
Qed.

(** X9.  A 4xx response is retried, not raised, when reading its body fails
    with an [aiohttp.ClientError]: with a second attempt allowed,
    [call_tool] sleeps [retry_delay] and sends the request again, and ends
    as that second attempt is decided. *)
Theorem call_tool_retries_unreadable_client_error name kwargs m r0 str r :
  2 <= max_retries (self m) ->
  server (sent (log m)) (call_request (self m) name kwargs) = Ok r0 ->
  400 <= status r0 < 500 ->
  text r0 = Raise (ClientError str) ->
  verdict_of (self m) name
    (server (sent (log m) + 1)%nat (call_request (self m) name kwargs))
  = Done r ->
  call_tool server name kwargs m = (r, finished name kwargs m 2) /\
  log (finished name kwargs m 2)
  = log m ++ [Request (current m) (call_request (self m) name kwargs);
              Sleep (retry_delay (self m) * of_int 1)%Qc;
              Request (current m) (call_request (self m) name kwargs)].
Proof.
  intros Hn Hr0 Hst Ht Hr. split; [|done].
  apply (call_tool_decided_at server name kwargs m
           (fun _ => NetworkError ("Network error: " +:+ str)) 1);
    [lia|lia| |done].
  - intros i Hi. replace i with 0%nat by lia. rewrite Nat.add_0_r, Hr0.
    unfold verdict_of.
    destruct (Z.leb_spec 500 (status r0)); [lia|].
    destruct (Z.leb_spec 400 (status r0)); [|lia].
    by rewrite Ht.
Qed.

(** X10.  A response below 400 whose body cannot be decoded is retried when
    the decoding fails with an [aiohttp.ClientError] (a wrong content type):
    with a second attempt allowed the same tool call is sent again. *)
Theorem call_tool_retries_undecodable_reply name kwargs m r0 str r :
  2 <= max_retries (self m) ->
  server (sent (log m)) (call_request (self m) name kwargs) = Ok r0 ->
  status r0 < 400 ->
  json r0 = Raise (ClientError str) ->
  verdict_of (self m) name
    (server (sent (log m) + 1)%nat (call_request (self m) name kwargs))
  = Done r ->
  call_tool server name kwargs m = (r, finished name kwargs m 2) /\
  sent (log (finished name kwargs m 2)) = (sent (log m) + 2)%nat.
Proof.
  intros Hn Hr0 Hst Hj Hr. split; [|apply finished_sent; lia].
  apply (call_tool_decided_at server name kwargs m
           (fun _ => NetworkError ("Network error: " +:+ str)) 1);
    [lia|lia| |done].
  - intros i Hi. replace i with 0%nat by lia. rewrite Nat.add_0_r, Hr0.
    unfold verdict_of.
    destruct (Z.leb_spec 500 (status r0)); [lia|].
    destruct (Z.leb_spec 400 (status r0)); [lia|].
    by rewrite Hj.
Qed.

(** X11.  A response below 400 whose body decodes to something that is not
    a mapping (a list, a string, a number, null) makes [call_tool] raise
    [AttributeError] after that one request; it is neither retried nor
    turned into a bridge error. *)
Theorem call_tool_body_not_mapping name kwargs m r v :
  1 <= max_retries (self m) ->
  server (sent (log m)) (call_request (self m) name kwargs) = Ok r ->
  status r < 400 ->
  json r = Ok v ->
  (forall d, v <> PDict d) ->
  exists str,
    call_tool server name kwargs m =
      (Raise (AttributeError str), finished name kwargs m 1).
Proof.
  intros Hn Hr Hst Hj Hv. exists "get".
  rewrite call_tool_single by done. simpl. unfold bind.
  rewrite before_verdict, Nat.add_0_r, Hr. unfold verdict_of.
  destruct (Z.leb_spec 500 (status r)); [lia|].
  destruct (Z.leb_spec 400 (status r)); [lia|].
  rewrite Hj. destruct v; try done. by destruct (Hv d).
Qed.

End Failures.

(** ** Discovery and closing under any server *)

Section Lifecycle.

Variable server : nat -> request -> result response.

(** X12.  Whatever the server does, [list_tools] and [get_tool_schema] send
    exactly one request each, on the bridge's session, and never sleep:
    a GET of [/tools/list] without parameters, and a GET of [/tools/schema]
    with the tool name as the [name] parameter. *)
Theorem discovery_single_request name m :
  log (snd (list_tools server m))
  = log m ++ [Request (current m) (GET (base_url (self m) +:+ "/tools/list") ∅)] /\
  log (snd (get_tool_schema server name m))
  = log m ++ [Request (current m)
                (GET (base_url (self m) +:+ "/tools/schema")
                     (<["name" := name]> ∅))].
Proof.
  destruct (acquired_config m) as (Hu & _).
  split.
  - unfold list_tools, bind, gets, send, lift, ret.
    rewrite get_session_eq, Hu, acquired_log.
    destruct (server _ _) as [r|e]; [|done].
    destruct (json r) as [v|e]; [|done]. by destruct v.
  - unfold get_tool_schema, bind, gets, send, lift.
    rewrite get_session_eq, Hu, acquired_log.
    by destruct (server _ _) as [r|e].
Qed.

(** X13.  An exception raised by the request of [list_tools] or of
    [get_tool_schema] comes out as it is, a connection failure or a timeout
    included: the discovery operations neither retry nor wrap it in a
    [NetworkError]. *)
Theorem discovery_errors_unwrapped name m e :
  (server (sent (log m)) (GET (base_url (self m) +:+ "/tools/list") ∅)
   = Raise e ->
   fst (list_tools server m) = Raise e) /\
  (server (sent (log m))
     (GET (base_url (self m) +:+ "/tools/schema") (<["name" := name]> ∅))
   = Raise e ->
   fst (get_tool_schema server name m) = Raise e).
Proof.
  destruct (acquired_config m) as (Hu & _).
  split; intros Hsrv.
  - unfold list_tools, bind, gets, send, lift, ret.
    by rewrite get_session_eq, Hu, acquired_log, Hsrv.
  - unfold get_tool_schema, bind, gets, send, lift.
    by rewrite get_session_eq, Hu, acquired_log, Hsrv.
Qed.

(** X14.  [list_tools] does not look at the status and does not check the
    [tools] entry: whatever the status, if the body decodes to a mapping
    with a [tools] entry, that entry is returned as it is. *)
Theorem list_tools_ignores_status m r d v :
  server (sent (log m)) (GET (base_url (self m) +:+ "/tools/list") ∅) = Ok r ->
  json r = Ok (PDict d) ->
  d !! "tools" = Some v ->
  fst (list_tools server m) = Ok v.
Proof.
  intros Hr Hj Hv. destruct (acquired_config m) as (Hu & _).
  unfold list_tools, bind, gets, send, lift, ret.
  rewrite get_session_eq, Hu, acquired_log, Hr, Hj. simpl.
  unfold dict_get. by rewrite Hv.
Qed.

(** X15.  [get_tool_schema] returns the decoded body of whatever response
    comes back, for every status and every shape of body, and raises what
    the decoding raises. *)
Theorem get_tool_schema_raw name m r :
  server (sent (log m))
    (GET (base_url (self m) +:+ "/tools/schema") (<["name" := name]> ∅))
  = Ok r ->
  fst (get_tool_schema server name m) = json r.
Proof.
  intros Hr. destruct (acquired_config m) as (Hu & _).
  unfold get_tool_schema, bind, gets, send, lift.
  by rewrite get_session_eq, Hu, acquired_log, Hr.
Qed.

End Lifecycle.

(** What [close] does to a machine. *)
Lemma close_outcome m :
  fst (close m) = Ok tt /\
  (forall s, ~ live (snd (close m)) s) /\
  self (snd (close m)) = self m /\
  log (snd (close m)) = log m /\
  length (sessions (snd (close m))) = length (sessions m) /\
  (forall s, _session (self m) <> Some s ->
     sessions (snd (close m)) !! s = sessions m !! s) /\
  close (snd (close m)) = (Ok tt, snd (close m)).
Proof.
  unfold close, closed, live.
  destruct (_session (self m)) as [s0|] eqn:Hs; simpl;
    [|rewrite Hs; repeat split; try done; by intros s [? _]].
  destruct (sessions m !! s0) as [[]|] eqn:Ho; simpl; rewrite ?Hs, ?Ho; simpl.
  - repeat split; try done. intros s [[= <-] Hl]. by rewrite Ho in Hl.
  - assert (Hlt : (s0 < length (sessions m))%nat) by (by apply lookup_lt_Some in Ho).
    rewrite list_lookup_insert_eq by done. simpl.
    repeat split; try done.
    + intros s [[= <-] Hl]. by rewrite list_lookup_insert_eq in Hl.
    + by rewrite length_insert.
    + intros s Hne. rewrite list_lookup_insert_ne; [done|]. by intros ->.
  - repeat split; try done. intros s [[= <-] Hl]. by rewrite Ho in Hl.
Qed.

(** X16.  After [close] the bridge has no open session; [close] never
    raises, leaves the log, the bridge's fields and every other session as
    they were, creates no session, and closing again changes nothing. *)
Theorem close_closes m :
  fst (close m) = Ok tt /\
  (forall s, ~ live (snd (close m)) s) /\
  self (snd (close m)) = self m /\
  log (snd (close m)) = log m /\
  length (sessions (snd (close m))) = length (sessions m) /\
  (forall s, _session (self m) <> Some s ->
     sessions (snd (close m)) !! s = sessions m !! s) /\
  close (snd (close m)) = (Ok tt, snd (close m)).
Proof. apply close_outcome. Qed.

(** X17.  [async with bridge: body] ends as [body] ends, result or
    exception, and in both cases leaves the bridge without an open session;
    the log is the one [body] left. *)
Theorem async_with_closes {A} (body : M machine A) m :
  fst (async_with body m) = fst (body m) /\
  (forall s, ~ live (snd (async_with body m)) s) /\
  log (snd (async_with body m)) = log (snd (body m)).
Proof.
  unfold async_with, __aenter__, __aexit__, bind, ret.
  destruct (body m) as [r m'] eqn:Hb. simpl.
  destruct (close_outcome m') as (Hok & Hl & _ & Hlog & _).
  destruct (close m') as [[[]|e] m'']; simpl in *; [done|done].
Qed.

(** ** The tool functions of the module *)

Lemma on_bridge_some {A} (method : M machine A) p b :
  _bridge p = Some b ->
  on_bridge method p =
    (fst (method (machine_of b p)), process_of p (snd (method (machine_of b p)))).
Proof.
  intros Hb. unfold on_bridge, machine_of, process_of. rewrite Hb.
  by destruct (method _).
Qed.

Lemma on_bridge_none {A} (method : M machine A) p :
  _bridge p = None ->
  on_bridge method p = (Raise (AttributeError "call_tool"), p).
Proof. intros Hb. unfold on_bridge. by rewrite Hb. Qed.

Section Stubs.

Variable server : nat -> request -> result response.

(** A call decided by its first attempt. *)
Lemma call_tool_first_decided name kwargs m r :
  1 <= max_retries (self m) ->
  verdict_of (self m) name
    (server (sent (log m)) (call_request (self m) name kwargs)) = Done r ->
  call_tool server name kwargs m = (r, finished name kwargs m 1).
Proof.
  intros Hn Hr. rewrite call_tool_single by done. simpl. unfold bind.
  rewrite before_verdict, Nat.add_0_r, Hr. by destruct r.
Qed.


(** X18.  Before any bridge exists ([_bridge] is [None]) every tool
    function, written out or generated, raises [AttributeError] and sends
    nothing. *)
Theorem stubs_need_bridge p :
  _bridge p = None ->
  (forall path, fails_unsent (Read server path p) p) /\
  (forall path content, fails_unsent (Write server path content p) p) /\
  (forall pattern path, fails_unsent (Glob server pattern path p) p) /\
  (forall pattern path glob, fails_unsent (Grep server pattern path glob p) p) /\
  (forall command timeout, fails_unsent (Bash server command timeout p) p) /\
  (forall name kwargs,
     fails_unsent (__call__ (_generate_tool_function server name) kwargs p) p).
Proof.
  intros Hb. unfold fails_unsent, Read, Write, Glob, Grep, Bash, bind; simpl.
  repeat split; intros; rewrite ?on_bridge_none by done; simpl; eauto.
Qed.




(** X22.  From a process without a bridge, [inject_tools] followed by a
    call of an injected function, with keyword arguments none of which is
    called [self] or [name], reaches the server once: one POST to
    [/tools/call] under the endpoint [AsterBridge(base_url)] resolves, with
    the payload [{"tool": name, "input": kwargs}] and the 60 second timeout,
    on a session created for it; a success reply gives its result. *)
Theorem injected_stub_end_to_end tools url p name f kwargs r d v :
  _bridge p = None ->
  fst (inject_tools server tools url p) !! name = Some f ->
  kwargs !! "self" = None ->
  kwargs !! "name" = None ->
  server (sent (trace p))
    (POST (base_url (AsterBridge_init (environ p) url None None)
           +:+ "/tools/call")
       (PDict (<["tool" := PStr name]> (<["input" := PDict kwargs]> ∅)))
       (Some 60))
  = Ok r ->
  200 <= status r < 300 ->
  json r = Ok (PDict d) ->
  d !! "success" = Some (PBool true) ->
  d !! "result" = Some v ->
  exists p',
    __call__ f kwargs (snd (inject_tools server tools url p)) = (Ok v, p') /\
    trace p' = trace p ++
      [Request (length (heap p))
         (POST (base_url (AsterBridge_init (environ p) url None None)
                +:+ "/tools/call")
            (PDict (<["tool" := PStr name]> (<["input" := PDict kwargs]> ∅)))
            (Some 60))] /\
    heap p' = heap p ++ [false] /\
    _session <$> _bridge p' = Some (Some (length (heap p))).
Proof.
  intros Hb Hf Hks Hkn Hr Hst Hj Hs Hv.
  unfold inject_tools in *; cbn [fst snd] in *.
  rewrite injected_lookup in Hf.
  destruct (decide (name ∈ tools)); [|by rewrite lookup_empty in Hf].
  injection Hf as <-.
  set (b := AsterBridge_init (environ p) url None None) in *.
  assert (Hp1 : snd (_init_bridge url p)
    = {| _bridge := Some b; environ := environ p;
         heap := heap p; trace := trace p |})
    by (unfold _init_bridge; by rewrite Hb).
  rewrite Hp1. cbn [__call__ _generate_tool_function].
  unfold call_tool_unpacked. rewrite Hks, Hkn.
  rewrite (on_bridge_some _ _ b) by done.
  rewrite (call_tool_first_decided name kwargs _ (Ok v)).
  - eexists. split; [done|]. by repeat split.
  - done.
  - cbn [machine_of self log trace].
    change (call_request b name kwargs)
      with (POST (base_url b +:+ "/tools/call")
              (PDict (<["tool" := PStr name]> (<["input" := PDict kwargs]> ∅)))
              (Some 60)).
    rewrite Hr. unfold verdict_of.
    destruct (Z.leb_spec 500 (status r)); [lia|].
    destruct (Z.leb_spec 400 (status r)); [lia|].
    rewrite Hj. unfold dict_get. by rewrite Hs, Hv.
Qed.

(** X23.  Every function [inject_tools] returns is named after its key,
    which is one of the names given: [__name__] is the key and [__doc__] is
    ["Call <key> tool"]. *)
Theorem injected_stub_named tools url p name f :
  fst (inject_tools server tools url p) !! name = Some f ->
  name ∈ tools /\
  __name__ f = name /\
  __doc__ f = "Call " +:+ name +:+ " tool".
Proof.
  unfold inject_tools; cbn [fst]. rewrite injected_lookup.
  destruct (decide (name ∈ tools)) as [Hin|Hnin];
    [|by rewrite lookup_empty].
  by intros [= <-].
Qed.

End Stubs.

(** ** The further properties on sample inputs *)



Lemma call_tool_trace_sample :
  exists k,
    (1 <= k <= 3)%nat /\
    snd (call_tool failing "Read" ∅ sample_machine)
    = finished "Read" ∅ sample_machine k /\
    log (snd (call_tool failing "Read" ∅ sample_machine))
    = flat_map (fun i => [Request 0 (call_request (self sample_machine) "Read" ∅);
                          Sleep (Q2Qc (1 # 2) * of_int (2 ^ Z.of_nat i))%Qc])
               (seq 0 (k - 1)) ++
      [Request 0 (call_request (self sample_machine) "Read" ∅)] /\
    base_url (self (snd (call_tool failing "Read" ∅ sample_machine)))
    = "http://localhost:8080" /\
    max_retries (self (snd (call_tool failing "Read" ∅ sample_machine))) = 3 /\
    retry_delay (self (snd (call_tool failing "Read" ∅ sample_machine)))
    = Q2Qc (1 # 2).
Proof. apply (call_tool_trace failing "Read" ∅ sample_machine). done. Defined.

Lemma call_tool_wraps_transport_errors_sample :
  transport_error (NetworkError "Tool Read timed out after 60 seconds") = false.
Proof.
  apply (call_tool_wraps_transport_errors timing_out "Read" ∅ sample_machine).
  reflexivity.
Defined.

Lemma call_tool_nothing_sent_sample :
  call_tool unreachable "Read" ∅ idle_machine =
    (Raise (NetworkError "Failed to call tool Read after 0 attempts"),
     idle_machine).
Proof. apply (call_tool_nothing_sent unreachable "Read" ∅ idle_machine). done. Defined.


Lemma call_tool_times_out_sample :
  call_tool timing_out "Read" ∅ sample_machine =
    (Raise (NetworkError "Tool Read timed out after 60 seconds"),
     finished "Read" ∅ sample_machine 3) /\
  sent (log (finished "Read" ∅ sample_machine 3)) = 3%nat.
Proof.
  apply (call_tool_times_out timing_out "Read" ∅ sample_machine).
  - done.
  - reflexivity.
Defined.

Lemma call_tool_retries_unreadable_client_error_sample :
  call_tool (then_always truncated (reply success_body)) "Read" ∅ sample_machine
  = (Ok (PStr "contents"), finished "Read" ∅ sample_machine 2) /\
  log (finished "Read" ∅ sample_machine 2)
  = [Request 0 (call_request (self sample_machine) "Read" ∅);
     Sleep (Q2Qc (1 # 2) * of_int 1)%Qc;
     Request 0 (call_request (self sample_machine) "Read" ∅)].
Proof.
  apply (call_tool_retries_unreadable_client_error
           (then_always truncated (reply success_body)) "Read" ∅
           sample_machine truncated "Response payload is not completed"
           (Ok (PStr "contents"))).
  - done.
  - reflexivity.
  - done.
  - reflexivity.
  - by vm_compute.
Defined.

Lemma call_tool_retries_undecodable_reply_sample :
  call_tool (then_always mistyped (reply success_body)) "Read" ∅ sample_machine
  = (Ok (PStr "contents"), finished "Read" ∅ sample_machine 2) /\
  sent (log (finished "Read" ∅ sample_machine 2)) = 2%nat.
Proof.
  apply (call_tool_retries_undecodable_reply
           (then_always mistyped (reply success_body)) "Read" ∅
           sample_machine mistyped "unexpected mimetype: text/html"
           (Ok (PStr "contents"))).
  - done.
  - reflexivity.
  - done.
  - reflexivity.
  - by vm_compute.
Defined.

Lemma call_tool_body_not_mapping_sample :
  exists str,
    call_tool (always listing) "Read" ∅ sample_machine =
      (Raise (AttributeError str), finished "Read" ∅ sample_machine 1).
Proof.
  apply (call_tool_body_not_mapping (always listing) "Read" ∅ sample_machine
           listing (PList [])).
  - done.
  - reflexivity.
  - done.
  - reflexivity.
  - discriminate.
Defined.

Lemma discovery_errors_unwrapped_sample :
  fst (list_tools unreachable sample_machine)
  = Raise (ClientConnectorError "Connection refused").
Proof.
  apply (proj1 (discovery_errors_unwrapped unreachable "Read" sample_machine
                  (ClientConnectorError "Connection refused"))).
  reflexivity.
Defined.

Lemma list_tools_ignores_status_sample :
  fst (list_tools (always broken_listing) sample_machine)
  = Ok (PList [PStr "Read"]).
Proof.
  apply (list_tools_ignores_status (always broken_listing) sample_machine
           broken_listing (<["tools" := PList [PStr "Read"]]> ∅)).
  - reflexivity.
  - reflexivity.
  - by vm_compute.
Defined.

Lemma get_tool_schema_raw_sample :
  fst (get_tool_schema (always listing) "Read" sample_machine) = Ok (PList []).
Proof.
  apply (get_tool_schema_raw (always listing) "Read" sample_machine listing).
  reflexivity.
Defined.

Lemma close_closes_sample :
  sessions (snd (close (acquired sample_machine))) !! 1%nat
  = sessions (acquired sample_machine) !! 1%nat.
Proof.
  apply (proj1 (proj2 (proj2 (proj2 (proj2 (proj2
           (close_closes (acquired sample_machine)))))))).
  discriminate.
Defined.

Lemma async_with_closes_sample :
  ~ live (snd (async_with (call_tool (always (reply success_body)) "Read" ∅)
                 sample_machine)) 0.
Proof.
  apply (proj1 (proj2 (async_with_closes
           (call_tool (always (reply success_body)) "Read" ∅) sample_machine))).
Defined.

Lemma stubs_need_bridge_sample :
  fails_unsent (Read (always (reply success_body)) "notes.txt" fresh_process)
    fresh_process.
Proof.
  apply (stubs_need_bridge (always (reply success_body)) fresh_process).
  reflexivity.
Defined.




Lemma injected_stub_end_to_end_sample :
  exists p',
    __call__ (_generate_tool_function (always (reply success_body)) "Read")
      (<["path" := PStr "notes.txt"]> ∅)
      (snd (inject_tools (always (reply success_body)) ["Read"] None
              fresh_process))
    = (Ok (PStr "contents"), p') /\
    trace p' = [] ++
      [Request 0
         (POST ("http://localhost:8080" +:+ "/tools/call")
            (PDict (<["tool" := PStr "Read"]>
                      (<["input" := PDict (<["path" := PStr "notes.txt"]> ∅)]> ∅)))
            (Some 60))] /\
    heap p' = [] ++ [false] /\
    _session <$> _bridge p' = Some (Some 0%nat).
Proof.
  apply (injected_stub_end_to_end (always (reply success_body)) ["Read"] None
           fresh_process "Read"
           (_generate_tool_function (always (reply success_body)) "Read")
           (<["path" := PStr "notes.txt"]> ∅)
           (reply success_body) success_body (PStr "contents")).
  - reflexivity.
  - by vm_compute.
  - by vm_compute.
  - by vm_compute.
  - reflexivity.
  - done.
  - reflexivity.
  - by vm_compute.
  - by vm_compute.
Defined.

Lemma injected_stub_named_sample :
  "Read" ∈ ["Read"; "Write"] /\
  __name__ (_generate_tool_function unreachable "Read") = "Read" /\
  __doc__ (_generate_tool_function unreachable "Read") = "Call Read tool".
Proof.
  apply (injected_stub_named unreachable ["Read"; "Write"] None fresh_process
           "Read" (_generate_tool_function unreachable "Read")).
  by vm_compute.
Defined.

(** ** Where the claims as stated fail *)

(** C1 as stated fails in three ways.  On [AsterBridge(max_retries=0)] no
    request is sent and the error raised is the fallback one.  On
    [AsterBridge(max_retries=1026, retry_delay=0.0)] the delay of attempt
    1024 cannot be computed: [OverflowError] after 1025 requests.  And when
    the body of the 5xx responses cannot be read, the error raised after the
    last attempt carries no response body. *)
Lemma call_tool_server_errors_breaks :
  ((forall i, (i < Z.to_nat (max_retries (self idle_machine)))%nat ->
      always unavailable (sent (log idle_machine) + i)%nat
        (call_request (self idle_machine) "Read" ∅) = Ok unavailable /\
      500 <= status unavailable < 600) /\
   call_tool (always unavailable) "Read" ∅ idle_machine =
     (Raise (NetworkError "Failed to call tool Read after 0 attempts"),
      idle_machine)) /\
  (max_retries (self patient_machine) = 1026 /\
   call_tool (always unavailable) "Read" ∅ patient_machine =
     (Raise (OverflowError "int too large to convert to float"),
      finished "Read" ∅ patient_machine 1025) /\
   sent (log (finished "Read" ∅ patient_machine 1025)) = 1025%nat) /\
  (status cut_short = 503 /\
   call_tool (always cut_short) "Read" ∅ sample_machine =
     (Raise (NetworkError "Network error: Response payload is not completed"),
      finished "Read" ∅ sample_machine 3)).
Proof.
  split; [|split].
  - split; [intros i Hi; by split|]. by rewrite call_tool_no_attempts.
  - split; [reflexivity|]. split.
    + apply (call_tool_overflows (always unavailable) "Read" ∅ patient_machine
               (fun _ => NetworkError "Server error (HTTP 503): unavailable")).
      * done.
      * intros i Hi. reflexivity.
    + by rewrite finished_sent by lia.
  - split; [reflexivity|].
    apply (call_tool_exhausted (always cut_short) "Read" ∅ sample_machine
             (fun _ => NetworkError
                "Network error: Response payload is not completed")).
    + done.
    + intros i Hi. reflexivity.
Qed.

(** C4.  A 404 whose body is cut short is not raised at once: the failure
    to read the body is caught as a network error, [call_tool] sleeps
    [retry_delay] and posts the request again, and here returns what the
    second response holds. *)
Lemma call_tool_client_error_retried :
  status truncated = 404 /\
  call_tool (then_always truncated (reply success_body)) "Read" ∅ sample_machine
  = (Ok (PStr "contents"), finished "Read" ∅ sample_machine 2) /\
  sent (log (finished "Read" ∅ sample_machine 2)) = 2%nat /\
  delays (log (finished "Read" ∅ sample_machine 2)) = [backoff (Q2Qc (1 # 2)) 0].
Proof.
  split; [reflexivity|]. split; [|split; reflexivity].
  apply (call_tool_decided_at (then_always truncated (reply success_body))
           "Read" ∅ sample_machine
           (fun _ => NetworkError
              "Network error: Response payload is not completed") 1).
  - lia.
  - simpl. lia.
  - intros [|i] Hi; [reflexivity|lia].
  - by vm_compute.
Qed.

(** C5 as stated fails on [AsterBridge(max_retries=1026, retry_delay=0.0)]:
    the first 1025 requests fail to connect and the last would succeed, but
    the delay of attempt 1024 cannot be computed and the call raises
    [OverflowError] after 1025 requests. *)
Lemma call_tool_connects_at_last_breaks :
  max_retries (self patient_machine) = 1026 /\
  (forall i, (i < 1025)%nat ->
     late (sent (log patient_machine) + i)%nat
       (call_request (self patient_machine) "Read" ∅)
     = Raise (ClientConnectorError "Connection refused")) /\
  late (sent (log patient_machine) + 1025)%nat
    (call_request (self patient_machine) "Read" ∅) = Ok (reply success_body) /\
  call_tool late "Read" ∅ patient_machine =
    (Raise (OverflowError "int too large to convert to float"),
     finished "Read" ∅ patient_machine 1025) /\
  sent (log (finished "Read" ∅ patient_machine 1025)) = 1025%nat.
Proof.
  assert (Hlate : forall i, (i < 1025)%nat ->
            late (sent (log patient_machine) + i)%nat
              (call_request (self patient_machine) "Read" ∅)
            = Raise (ClientConnectorError "Connection refused")).
  { intros i Hi. unfold late. cbn [patient_machine log sent filter length].
    rewrite Nat.add_0_l. by destruct (Nat.ltb_spec i 1025); [|lia]. }
  split; [reflexivity|]. split; [exact Hlate|]. split; [reflexivity|]. split.
  - apply (call_tool_overflows late "Read" ∅ patient_machine
             (fun _ => NetworkError
                ("Connection error: Connection refused. "
                 +:+ "Is the bridge server running at "
                 +:+ "http://localhost:8080?"))).
    + done.
    + intros i Hi. by rewrite Hlate by lia.
  - by rewrite finished_sent by lia.
Qed.

(** C6 as stated fails in two ways.  When a bridge exists already, a second
    [inject_tools] with another endpoint keeps the bridge of the first.
    And an injected function called with a keyword [name] raises
    [TypeError] and sends nothing, since [name] is a parameter of
    [call_tool]. *)
Lemma inject_tools_registry_breaks :
  (base_url <$>
     _bridge (snd (inject_tools (always (reply success_body)) ["Read"]
                     (Some "http://second:9090")
                     (snd (inject_tools (always (reply success_body)) ["Read"]
                             (Some "http://first:8080") fresh_process))))
   = Some "http://first:8080") /\
  (fst (inject_tools (always (reply success_body)) ["get_tool_schema"] None
          fresh_process) !! "get_tool_schema"
   = Some (_generate_tool_function (always (reply success_body))
             "get_tool_schema") /\
   __call__ (_generate_tool_function (always (reply success_body))
               "get_tool_schema")
     (<["name" := PStr "Read"]> ∅) ready_process
   = (Raise (TypeError
        "AsterBridge.call_tool() got multiple values for argument 'name'"),
      ready_process)).
Proof.
  split; [reflexivity|]. split; [by vm_compute|reflexivity].
Qed.
